(** * Pull-to-refresh gesture recogniser: a shallow embedding of
      [src/components/common/PullToRefresh.vue]

    The script part of the component is an event-driven program: a handful of
    module-level variables and Vue refs, mutated by DOM event handlers, by
    timer callbacks and by the continuation of an awaited refresh promise.
    The embedding is by explicit state passing.  Closures handed to
    [setTimeout] and the [finally] blocks suspended at [await] are
    defunctionalised into the inductive types [Callback] and [Cont]; the
    browser's timer table is a finite map from timer handles to pending
    callbacks, and one turn of the event loop is [dispatch].

    Numbers.  Coordinates, wheel deltas and distances are JavaScript numbers.
    They are modelled by exact rationals ([Q]), so rounding, [NaN] and the
    infinities are outside the model; [Date.now()] and timer deadlines are
    integers of milliseconds ([Z]).  The literals [0.4], [0.3] and [0.5] are
    [4#10], [3#10] and [1#2].

    Left out: the template, and the mount and unmount hooks (listener
    registration; [wheelTimeout] is never assigned in the source). *)

From Stdlib Require Import QArith Qminmax ZArith Lia Lqa.
From stdpp Require Import base option list gmap strings.

Local Open Scope Q_scope.

(** ** Numeric comparisons of the source, as boolean tests on [Q] *)

(** [x <= y] *)
Definition Qleb (x y : Q) : bool := Qle_bool x y.
(** [x < y] (also used for [y > x]) *)
Definition Qltb (x y : Q) : bool := negb (Qle_bool y x).

(** ** The DOM as the probe sees it *)

(** One node of the ancestor chain: its identity, [nodeType], the computed
    [overflowY] style and [scrollTop]. *)
Record Node := mkNode {
  nodeId : nat;
  nodeType : Z;
  overflowY : string;
  scrollTop : Q
}.

(** An event target is given by its [parentElement] chain: the target itself
    first, then its parent, and so on; the empty chain is [null]. *)
Definition Target := list Node.

(** What a handler reads from outside the component when it runs. *)
Record Env := mkEnv {
  scrollY : Q;              (* window.scrollY *)
  now : Z;                  (* Date.now() *)
  threshold : Q;            (* props.threshold *)
  isLoading : bool;         (* props.isLoading *)
  onRefreshThrows : bool;   (* props.onRefresh() throws before returning a promise *)
  containerRef : option nat (* containerRef.value, by node identity *)
}.

(** [current !== containerRef.value] *)
Definition is_container (c : option nat) (n : Node) : bool :=
  match c with
  | Some i => Nat.eqb (nodeId n) i
  | None => false
  end.

(** [['auto', 'scroll'].includes(style.overflowY)] *)
Definition overflow_scrolls (o : string) : bool :=
  String.eqb o "auto" || String.eqb o "scroll".

(** [isScrollable(el)]: the loop walks the chain until [null] or the container. *)
Fixpoint isScrollable (c : option nat) (chain : Target) : bool :=
  match chain with
  | [] => false
  | current :: parents =>
      if is_container c current then false
      else if negb (nodeType current =? 1)%Z then isScrollable c parents
      else if overflow_scrolls (overflowY current) && Qltb 0 (scrollTop current)
           then true
           else isScrollable c parents
  end.

(** ** Timers, suspended continuations and the component state *)

(** The closures passed to [setTimeout]. *)
Inductive Callback :=
  | CbWatchReset   (* watcher:  pullDistance = 0 *)
  | CbSettle       (* finally:  isRefreshing = false; pullDistance = 0 *)
  | CbInactivity.  (* handleWheel's inactivity check *)

(** The [finally] blocks waiting behind [await props.onRefresh()]. *)
Inductive Cont :=
  | FinallyEnd     (* of handleEnd *)
  | FinallyExec.   (* of executeRefresh *)

Record State := mkState {
  pullDistance : Q;
  isRefreshing : bool;
  isPulling : bool;
  startY : Q;
  isDragging : bool;
  lastWheelTime : Z;
  accumulatedDelta : Q;
  lastWheelEventTime : Z;
  inactivityTimer : option positive;
  (* the runtime around the component *)
  timers : gmap positive (Z * Callback);  (* pending timeouts: deadline, closure *)
  nextTimer : positive;                   (* next handle setTimeout returns *)
  pending : list Cont;                    (* refresh promises not yet settled *)
  refreshCalls : nat;                     (* calls of props.onRefresh so far *)
  prevented : nat                         (* calls of e.preventDefault so far *)
}.

Definition set_pullDistance (v : Q) (s : State) : State :=
  mkState v (isRefreshing s) (isPulling s) (startY s) (isDragging s)
    (lastWheelTime s) (accumulatedDelta s) (lastWheelEventTime s)
    (inactivityTimer s) (timers s) (nextTimer s) (pending s) (refreshCalls s)
    (prevented s).

Definition set_isRefreshing (v : bool) (s : State) : State :=
  mkState (pullDistance s) v (isPulling s) (startY s) (isDragging s)
    (lastWheelTime s) (accumulatedDelta s) (lastWheelEventTime s)
    (inactivityTimer s) (timers s) (nextTimer s) (pending s) (refreshCalls s)
    (prevented s).

Definition set_isPulling (v : bool) (s : State) : State :=
  mkState (pullDistance s) (isRefreshing s) v (startY s) (isDragging s)
    (lastWheelTime s) (accumulatedDelta s) (lastWheelEventTime s)
    (inactivityTimer s) (timers s) (nextTimer s) (pending s) (refreshCalls s)
    (prevented s).

Definition set_startY (v : Q) (s : State) : State :=
  mkState (pullDistance s) (isRefreshing s) (isPulling s) v (isDragging s)
    (lastWheelTime s) (accumulatedDelta s) (lastWheelEventTime s)
    (inactivityTimer s) (timers s) (nextTimer s) (pending s) (refreshCalls s)
    (prevented s).

Definition set_isDragging (v : bool) (s : State) : State :=
  mkState (pullDistance s) (isRefreshing s) (isPulling s) (startY s) v
    (lastWheelTime s) (accumulatedDelta s) (lastWheelEventTime s)
    (inactivityTimer s) (timers s) (nextTimer s) (pending s) (refreshCalls s)
    (prevented s).

Definition set_lastWheelTime (v : Z) (s : State) : State :=
  mkState (pullDistance s) (isRefreshing s) (isPulling s) (startY s) (isDragging s)
    v (accumulatedDelta s) (lastWheelEventTime s)
    (inactivityTimer s) (timers s) (nextTimer s) (pending s) (refreshCalls s)
    (prevented s).

Definition set_accumulatedDelta (v : Q) (s : State) : State :=
  mkState (pullDistance s) (isRefreshing s) (isPulling s) (startY s) (isDragging s)
    (lastWheelTime s) v (lastWheelEventTime s)
    (inactivityTimer s) (timers s) (nextTimer s) (pending s) (refreshCalls s)
    (prevented s).

Definition set_lastWheelEventTime (v : Z) (s : State) : State :=
  mkState (pullDistance s) (isRefreshing s) (isPulling s) (startY s) (isDragging s)
    (lastWheelTime s) (accumulatedDelta s) v
    (inactivityTimer s) (timers s) (nextTimer s) (pending s) (refreshCalls s)
    (prevented s).

Definition set_inactivityTimer (v : option positive) (s : State) : State :=
  mkState (pullDistance s) (isRefreshing s) (isPulling s) (startY s) (isDragging s)
    (lastWheelTime s) (accumulatedDelta s) (lastWheelEventTime s)
    v (timers s) (nextTimer s) (pending s) (refreshCalls s)
    (prevented s).

Definition set_timers (v : gmap positive (Z * Callback)) (s : State) : State :=
  mkState (pullDistance s) (isRefreshing s) (isPulling s) (startY s) (isDragging s)
    (lastWheelTime s) (accumulatedDelta s) (lastWheelEventTime s)
    (inactivityTimer s) v (nextTimer s) (pending s) (refreshCalls s)
    (prevented s).

Definition set_nextTimer (v : positive) (s : State) : State :=
  mkState (pullDistance s) (isRefreshing s) (isPulling s) (startY s) (isDragging s)
    (lastWheelTime s) (accumulatedDelta s) (lastWheelEventTime s)
    (inactivityTimer s) (timers s) v (pending s) (refreshCalls s)
    (prevented s).

Definition set_pending (v : list Cont) (s : State) : State :=
  mkState (pullDistance s) (isRefreshing s) (isPulling s) (startY s) (isDragging s)
    (lastWheelTime s) (accumulatedDelta s) (lastWheelEventTime s)
    (inactivityTimer s) (timers s) (nextTimer s) v (refreshCalls s)
    (prevented s).

Definition set_refreshCalls (v : nat) (s : State) : State :=
  mkState (pullDistance s) (isRefreshing s) (isPulling s) (startY s) (isDragging s)
    (lastWheelTime s) (accumulatedDelta s) (lastWheelEventTime s)
    (inactivityTimer s) (timers s) (nextTimer s) (pending s) v
    (prevented s).

Definition set_prevented (v : nat) (s : State) : State :=
  mkState (pullDistance s) (isRefreshing s) (isPulling s) (startY s) (isDragging s)
    (lastWheelTime s) (accumulatedDelta s) (lastWheelEventTime s)
    (inactivityTimer s) (timers s) (nextTimer s) (pending s) (refreshCalls s)
    v.

(** The state right after [<script setup>] has run. *)
Definition initial : State :=
  mkState 0 false false 0 false 0%Z 0 0%Z None ∅ 1%positive [] 0%nat 0%nat.

(** The four gesture states of the specification, read off the flags. *)
Inductive GestureState := Idle | Dragging | Pulling | Refreshing.

Definition gestureState (s : State) : GestureState :=
  if isRefreshing s then Refreshing
  else if isPulling s then Pulling
  else if isDragging s then Dragging
  else Idle.

(** ** Runtime primitives *)

(** [setTimeout(cb, delay)]: a fresh handle, the callback due at [now + delay]. *)
Definition setTimeout (cb : Callback) (delay : Z) (e : Env) (s : State)
  : positive * State :=
  let id := nextTimer s in
  (id, set_nextTimer (Pos.succ id)
         (set_timers (<[id := ((now e + delay)%Z, cb)]> (timers s)) s)).

(** [clearTimeout(id)] *)
Definition clearTimeout (id : positive) (s : State) : State :=
  set_timers (delete id (timers s)) s.

(** [if (e.cancelable) e.preventDefault()] and its variants *)
Definition preventDefaultIf (b : bool) (s : State) : State :=
  if b then set_prevented (S (prevented s)) s else s.

(** The body of a [finally] block. *)
Definition runFinally (k : Cont) (e : Env) (s : State) : State :=
  match k with
  | FinallyEnd => snd (setTimeout CbSettle 500 e s)
  | FinallyExec =>
      if negb (isLoading e) then snd (setTimeout CbSettle 500 e s) else s
  end.

(** [try { await props.onRefresh() } finally { k }]: the callback is called;
    when it throws at once the [finally] block runs in the same turn, and
    otherwise the function suspends until the promise settles. *)
Definition awaitRefresh (k : Cont) (e : Env) (s : State) : State :=
  let s1 := set_refreshCalls (S (refreshCalls s)) s in
  if onRefreshThrows e then runFinally k e s1
  else set_pending (pending s1 ++ [k]) s1.

(** ** The state machine *)

Definition handleStart (e : Env) (y : Q) (target : Target) (s : State) : State :=
  if Qleb (scrollY e) 5 && negb (isRefreshing s) then
    if isScrollable (containerRef e) target then s
    else set_isDragging true (set_startY y s)
  else s.

Definition handleMove (e : Env) (y : Q) (cancelable : bool) (s : State) : State :=
  if negb (isDragging s) then s
  else if isRefreshing s then s
  else
    let diff := y - startY s in
    if Qltb 0 diff && Qleb (scrollY e) 5 then
      set_pullDistance (diff * (4#10))
        (set_isPulling true (preventDefaultIf cancelable s))
    else
      let s1 := set_pullDistance 0 (set_isPulling false s) in
      if Qltb diff 0 then set_isDragging false s1 else s1.

Definition handleEnd (e : Env) (s : State) : State :=
  let s0 := set_isDragging false s in
  if negb (isPulling s0) then s0
  else if Qleb (threshold e) (pullDistance s0) then
    awaitRefresh FinallyEnd e
      (set_pullDistance (threshold e)
         (set_isRefreshing true (set_isPulling false s0)))
  else set_pullDistance 0 (set_isPulling false s0).

Definition executeRefresh (e : Env) (s : State) : State :=
  awaitRefresh FinallyExec e
    (set_pullDistance (threshold e)
       (set_isRefreshing true (set_isPulling false s))).

(** The watcher on [props.isLoading]. *)
Definition watchIsLoading (e : Env) (newValue : bool) (s : State) : State :=
  let s1 := set_isRefreshing newValue s in
  if negb newValue then snd (setTimeout CbWatchReset 500 e s1) else s1.

(** The bodies of the timer callbacks. *)
Definition runCallback (cb : Callback) (e : Env) (s : State) : State :=
  match cb with
  | CbWatchReset => set_pullDistance 0 s
  | CbSettle => set_pullDistance 0 (set_isRefreshing false s)
  | CbInactivity =>
      let s1 :=
        if Qleb (threshold e) (pullDistance s) then executeRefresh e s
        else set_pullDistance 0 (set_isPulling false s) in
      set_accumulatedDelta 0 s1
  end.

(** ** Input adapters *)

(** A touch point; only [clientY] is read. *)
Record Touch := mkTouch { clientY : Q }.

(** A handler either completes or lets a [TypeError] escape to the event loop. *)
Inductive Completion :=
  | Normal (s : State)
  | TypeError.

(** [e.touches[0].clientY]: reading a property of [undefined] throws. *)
Definition handleTouchStart (e : Env) (touches : list Touch) (target : Target)
    (s : State) : Completion :=
  match touches with
  | t :: _ => Normal (handleStart e (clientY t) target s)
  | [] => TypeError
  end.

Definition handleTouchMove (e : Env) (touches : list Touch) (cancelable : bool)
    (s : State) : Completion :=
  match touches with
  | t :: _ => Normal (handleMove e (clientY t) cancelable s)
  | [] => TypeError
  end.

Definition handleTouchEnd (e : Env) (s : State) : Completion :=
  Normal (handleEnd e s).

Definition handleMouseDown (e : Env) (y : Q) (target : Target) (s : State) : State :=
  handleStart e y target s.

Definition handleMouseMove (e : Env) (y : Q) (cancelable : bool) (s : State) : State :=
  if isDragging s then handleMove e y cancelable s else s.

Definition handleMouseUp (e : Env) (s : State) : State := handleEnd e s.
Definition handleMouseLeave (e : Env) (s : State) : State := handleEnd e s.

(** [clearTimeout(inactivityTimer)]; clearing [null] does nothing. *)
Definition clearInactivity (s : State) : State :=
  match inactivityTimer s with
  | Some id => clearTimeout id s
  | None => s
  end.

(** Source lines 177-196: note the time of the event, drop the pending
    inactivity timer and start a new one of 50ms. *)
Definition resetInactivityTimer (e : Env) (s : State) : State :=
  let s1 := set_lastWheelEventTime (now e) s in
  let s2 := clearInactivity s1 in
  let '(id, s3) := setTimeout CbInactivity 50 e s2 in
  set_inactivityTimer (Some id) s3.

(** The part of [handleWheel] behind its three guards (source lines 177-246). *)
Definition wheelBody (e : Env) (deltaY : Q) (cancelable : bool) (s : State) : State :=
  let s4 := resetInactivityTimer e s in
  if Qltb deltaY 0 then
    if (now e - lastWheelTime s4 <? 16)%Z then
      set_accumulatedDelta (accumulatedDelta s4 + (- deltaY) * (3#10)) s4
    else
      let s5 := set_lastWheelTime (now e) s4 in
      let s6 := preventDefaultIf (Qltb 0 (pullDistance s5) && cancelable) s5 in
      let s7 := set_isPulling true s6 in
      let newDistance :=
        pullDistance s7 + accumulatedDelta s7 + (- deltaY) * (3#10) in
      let s8 := set_accumulatedDelta 0 s7 in
      let s9 := set_pullDistance (Qmin newDistance (threshold e * 2)) s8 in
      if Qleb (threshold e) (pullDistance s9) && Qltb 50 (- deltaY) then
        executeRefresh e (clearInactivity s9)
      else s9
  else
    if Qltb 0 (pullDistance s4) then
      let s5 :=
        set_pullDistance (Qmax 0 (pullDistance s4 - deltaY * (1#2))) s4 in
      let s6 :=
        if Qeq_bool (pullDistance s5) 0 then set_isPulling false s5 else s5 in
      preventDefaultIf (cancelable && isPulling s6) s6
    else s4.

Definition handleWheel (e : Env) (deltaY : Q) (target : Target) (cancelable : bool)
    (s : State) : State :=
  if isRefreshing s then s
  else if Qltb 0 (scrollY e) then set_isPulling false (set_pullDistance 0 s)
  else if isScrollable (containerRef e) target then s
  else wheelBody e deltaY cancelable s.

(** ** The event loop *)

Inductive Event :=
  | TouchStart (touches : list Touch) (target : Target)
  | TouchMove (touches : list Touch) (cancelable : bool)
  | TouchEnd
  | MouseDown (y : Q) (target : Target)
  | MouseMove (y : Q) (cancelable : bool)
  | MouseUp
  | MouseLeave
  | Wheel (deltaY : Q) (target : Target) (cancelable : bool)
  | TimerFire (id : positive)        (* the runtime runs a due timeout *)
  | Settle (i : nat)                 (* the i-th pending refresh promise settles *)
  | LoadingChanged (newValue : bool) (* the watcher on props.isLoading runs *).

(** One turn of the event loop.  [None]: the turn cannot happen (no such
    timer, a timer not yet due, no such pending promise). *)
Definition dispatch (e : Env) (ev : Event) (s : State) : option Completion :=
  match ev with
  | TouchStart touches target => Some (handleTouchStart e touches target s)
  | TouchMove touches c => Some (handleTouchMove e touches c s)
  | TouchEnd => Some (handleTouchEnd e s)
  | MouseDown y target => Some (Normal (handleMouseDown e y target s))
  | MouseMove y c => Some (Normal (handleMouseMove e y c s))
  | MouseUp => Some (Normal (handleMouseUp e s))
  | MouseLeave => Some (Normal (handleMouseLeave e s))
  | Wheel d target c => Some (Normal (handleWheel e d target c s))
  | TimerFire id =>
      match timers s !! id with
      | Some (due, cb) =>
          if (due <=? now e)%Z
          then Some (Normal (runCallback cb e (clearTimeout id s)))
          else None
      | None => None
      end
  | Settle i =>
      match pending s !! i with
      | Some k => Some (Normal (runFinally k e (set_pending (delete i (pending s)) s)))
      | None => None
      end
  | LoadingChanged v => Some (Normal (watchIsLoading e v s))
  end.

(** The state the component is left in by a turn: a handler that threw had
    not written anything yet. *)
Definition after (s : State) (c : Completion) : State :=
  match c with
  | Normal s' => s'
  | TypeError => s
  end.

(** A run: turns in order, each with what the environment looks like then. *)
Fixpoint run (tr : list (Env * Event)) (s : State) : option State :=
  match tr with
  | [] => Some s
  | (e, ev) :: rest =>
      match dispatch e ev s with
      | Some c => run rest (after s c)
      | None => None
      end
  end.

(** The clock never goes back along a run. *)
Fixpoint chronological (t0 : Z) (tr : list (Env * Event)) : bool :=
  match tr with
  | [] => true
  | (e, _) :: rest => (t0 <=? now e)%Z && chronological (now e) rest
  end.

(** ** The probe, as the specification words it *)

(** What the specification says the probe looks for: an element of the chain,
    reached before the container, whose vertical overflow is [auto] or
    [scroll] and which is scrolled away from its top. *)
Definition scrolled_region (n : Node) : Prop :=
  nodeType n = 1%Z /\ (overflowY n = "auto" \/ overflowY n = "scroll")
  /\ 0 < scrollTop n.

Definition inside_scrolled_region (c : option nat) (chain : Target) : Prop :=
  exists below n above,
    chain = below ++ n :: above
    /\ Forall (fun m => is_container c m = false) (below ++ [n])
    /\ scrolled_region n.

(** ** Runs without interference from the caller *)

Definition isLoadingChange (ev : Event) : bool :=
  match ev with
  | LoadingChanged _ => true
  | _ => false
  end.

(** No turn of the run is the watcher on [props.isLoading]. *)
Definition quiet (tr : list (Env * Event)) : bool :=
  forallb (fun p => negb (isLoadingChange (snd p))) tr.



(** ** Timer handles *)

(** Handles in use are older than the next one [setTimeout] will return. *)
Definition handles_fresh (s : State) : Prop :=
  (forall id, is_Some (timers s !! id) -> (id < nextTimer s)%positive)
  /\ (forall id, inactivityTimer s = Some id -> (id < nextTimer s)%positive).

(** ** Wheel bursts *)

(** The distance an upward wheel event writes when it is not throttled. *)
Definition flushed (e : Env) (d : Q) (s : State) : Q :=
  Qmin (pullDistance s + accumulatedDelta s + (- d) * (3#10)) (threshold e * 2).

(** An upward wheel event that passes the guards of [handleWheel] and comes
    less than 16ms after the event processed at [t0]. *)
Definition throttledUp (t0 : Z) (p : Env * Event) : Prop :=
  match p with
  | (e, Wheel d target _) =>
      d < 0 /\ (now e - t0 < 16)%Z /\ scrollY e <= 0
      /\ isScrollable (containerRef e) target = false
  | _ => False
  end.

(** The scaled deltas of the wheel events of a run, added in order to [acc]. *)
Definition scaledSum (tr : list (Env * Event)) (acc : Q) : Q :=
  fold_left (fun a p => match snd p with
                        | Wheel d _ _ => a + (- d) * (3#10)
                        | _ => a
                        end) tr acc.

(** The test that makes an upward wheel event start the refresh itself
    (source line 229), in terms of the state the event arrives in. *)
Definition triggersAtOnce (e : Env) (d : Q) (s : State) : bool :=
  Qltb d 0 && negb (now e - lastWheelTime s <? 16)%Z
  && (Qleb (threshold e) (flushed e d s) && Qltb 50 (- d)).

(** How a turn may change the timer table: handles are handed out in
    increasing order, timers come into being only under new handles, and the
    inactivity handle stays or becomes a new one. *)
Definition evolves (s s' : State) : Prop :=
  (nextTimer s <= nextTimer s')%positive
  /\ (forall id, is_Some (timers s' !! id) ->
        is_Some (timers s !! id) \/ (nextTimer s <= id < nextTimer s')%positive)
  /\ (forall i, inactivityTimer s' = Some i ->
        inactivityTimer s = Some i \/ (nextTimer s <= i < nextTimer s')%positive).

(** A turn that cancels nothing: the timers handed out so far are as before. *)
Definition retains (s s' : State) : Prop :=
  forall id, (id < nextTimer s)%positive -> timers s' !! id = timers s !! id.

Definition grows (s s' : State) : Prop := evolves s s' /\ retains s s'.

(** Turns that leave the inactivity timer [id] alone: no wheel event, and the
    timer itself does not run. *)
Definition leavesTimer (id : positive) (ev : Event) : bool :=
  match ev with
  | Wheel _ _ _ => false
  | TimerFire j => negb (Pos.eqb j id)
  | _ => true
  end.

(** ** Sample environments and targets *)

(** The page at its top at time [t]: threshold 60, no external loading, a
    refresh callback that returns a promise, the container is node 0. *)
Definition atTop (t : Z) : Env := mkEnv 0 t 60 false false (Some 0%nat).

(** The same, with [props.isLoading] true. *)
Definition atTopLoading (t : Z) : Env := mkEnv 0 t 60 true false (Some 0%nat).

(** The same, with a refresh callback that throws when called. *)
Definition atTopThrowing (t : Z) : Env := mkEnv 0 t 60 false true (Some 0%nat).

(** The page scrolled down by 40. *)
Definition scrolledDown (t : Z) : Env := mkEnv 40 t 60 false false (Some 0%nat).

(** A paragraph in the content wrapper of the container. *)
Definition paragraph : Target :=
  [mkNode 2 1 "visible" 0; mkNode 1 1 "visible" 0; mkNode 0 1 "visible" 0].

(** An item of a nested list that is scrolled down by 120. *)
Definition listItem : Target :=
  [mkNode 4 1 "visible" 0; mkNode 3 1 "auto" 120; mkNode 1 1 "visible" 0;
   mkNode 0 1 "visible" 0].

(** The component after a press at 100 and a move to 250: Pulling, with the
    distance (250 - 100) * 0.4 = 60. *)
Definition pulledTo60 : State :=
  mkState (150 * (4#10)) false true 100 true 0%Z 0 0%Z None ∅ 1%positive
    [] 0%nat 1%nat.

(** Three wheel events of -20 within 16ms of an event processed at 100. *)
Definition smallBurst : list (Env * Event) :=
  [(atTop 104, Wheel (-20) paragraph true);
   (atTop 108, Wheel (-20) paragraph true);
   (atTop 112, Wheel (-20) paragraph true)].

(** The component after one wheel event of -100 at time 100: Pulling at 30. *)
Definition wheeledTo30 : State :=
  handleWheel (atTop 100) (-100) paragraph true initial.

(** Four wheel events of -50, 20ms apart, pull the distance to the threshold
    without any of them starting the refresh; the pointer then leaves the
    container, and 50ms after the last wheel event the inactivity timer
    (handle 4) runs. *)
Definition wheelThenLeave : list (Env * Event) :=
  [(atTop 100, Wheel (-50) paragraph true);
   (atTop 120, Wheel (-50) paragraph true);
   (atTop 140, Wheel (-50) paragraph true);
   (atTop 160, Wheel (-50) paragraph true);
   (atTop 170, MouseLeave);
   (atTop 210, TimerFire 4)].

(** What the caller can observe of a refresh: the Refreshing flag, the number
    of calls of the callback and the number of its promises still pending. *)
Definition refreshView (s : State) : bool * nat * nat :=
  (isRefreshing s, refreshCalls s, length (pending s)).

(** The scenario of the specification: press at 100, move to 250, release;
    the refresh settles at 900 and the reset timer (handle 1) runs at 1400. *)
Definition releaseScenario : list (Env * Event) :=
  [(atTop 10, TouchStart [mkTouch 100] paragraph);
   (atTop 20, TouchMove [mkTouch 250] true);
   (atTop 30, TouchEnd);
   (atTop 900, Settle 0);
   (atTop 1400, TimerFire 1)].

(** The gesture state, the distance and the number of refresh calls. *)
Definition gestureView (s : State) : GestureState * Q * nat :=
  (gestureState s, pullDistance s, refreshCalls s).

(** The component after the four wheel events of [wheelThenLeave]: Pulling at
    the threshold, the inactivity timer (handle 4) pending. *)
Definition wheeledToThreshold : State :=
  default initial (run (take 4 wheelThenLeave) initial).

(** Two wheel events of -100 within 16ms of the event processed at 100. *)
Definition bigBurst : list (Env * Event) :=
  [(atTop 104, Wheel (-100) paragraph true);
   (atTop 108, Wheel (-100) paragraph true)].

(** A text node inside the scrolled list of [listItem]. *)
Definition textInList : Target := mkNode 5 3 "" 0 :: listItem.



(** The gesture state, the distance, the calls of the refresh callback and
    the number of its promises still pending. *)
Definition refreshStatus (s : State) : GestureState * Q * nat * nat :=
  (gestureState s, pullDistance s, refreshCalls s, length (pending s)).

(** The mouse button goes down at 10 and stays down; one wheel event of -100
    at 100, whose inactivity timer (handle 1) runs at 150. *)
Definition wheelWhilePressed : list (Env * Event) :=
  [(atTop 10, MouseDown 100 paragraph);
   (atTop 100, Wheel (-100) paragraph true);
   (atTop 150, TimerFire 1)].

(** The four wheel events of [wheelThenLeave], then a wheel event over the
    scrolled list at 200, and the inactivity timer of the event at 160
    (handle 4) running at 210. *)
Definition wheelOverList : list (Env * Event) :=
  take 4 wheelThenLeave
  ++ [(atTop 200, Wheel (-50) listItem true); (atTop 210, TimerFire 4)].

(** The component after a press at 100 that has not become a pull. *)
Definition pressedAt100 : State := handleStart (atTop 10) 100 paragraph initial.

(** The environment once the container element is gone: the template ref is
    [null]. *)
Definition detached (t : Z) : Env := mkEnv 0 t 60 false false None.

(** ** The template *)

(** The icon of the indicator: [v-if], [v-else-if], [v-else]. *)
Inductive Icon :=
  | Spinner        (* <LoadingSpinner v-if="isRefreshing"> *)
  | ArrowTurned    (* the arrow, rotated by 180 degrees *)
  | ArrowDown.

(** What the template computes from the state (source lines 293-327). *)
Record View := mkView {
  indicatorTop : Q;        (* top: -threshold px *)
  indicatorHeight : Q;     (* height: threshold px *)
  indicatorShift : Q;      (* translateY(pullDistance px) *)
  indicatorOpacity : Q;    (* pullDistance > 0 ? 1 : 0 *)
  icon : Icon;
  label : string;
  contentShift : Q;        (* translateY(pullDistance px) *)
  contentEased : bool      (* 'duration-300 ease-out': !isPulling && !isDragging *)
}.

Definition labelRefreshing : string := "刷新中...".
Definition labelRelease : string := "释放刷新".
Definition labelPull : string := "下拉刷新".

Definition render (e : Env) (s : State) : View :=
  mkView (- threshold e) (threshold e) (pullDistance s)
    (if Qltb 0 (pullDistance s) then 1 else 0)
    (if isRefreshing s then Spinner
     else if Qltb (threshold e) (pullDistance s) then ArrowTurned
     else ArrowDown)
    (if isRefreshing s then labelRefreshing
     else if Qltb (threshold e) (pullDistance s) then labelRelease
     else labelPull)
    (pullDistance s)
    (negb (isPulling s) && negb (isDragging s)).

(** ** Mounting *)

(** The component with the listeners registered on its container, by event
    type (each type has one handler). *)
Record Component := mkComponent {
  comp : State;
  listeners : gset string
}.

(** The event types of source lines 253-264 and 271-280. *)
Definition domEvents : list string :=
  ["touchstart"; "touchmove"; "touchend";
   "mousedown"; "mousemove"; "mouseup"; "mouseleave"; "wheel"].

(** [onMounted]: with a container element, register the eight listeners. *)
Definition onMounted (e : Env) (m : Component) : Component :=
  match containerRef e with
  | Some _ => mkComponent (comp m) (listeners m ∪ list_to_set domEvents)
  | None => m
  end.

(** [onUnmounted]: with a container element, remove the eight listeners;
    then clear [wheelTimeout] (always [null]: nothing to do) and the
    inactivity timer. *)
Definition onUnmounted (e : Env) (m : Component) : Component :=
  let m1 := match containerRef e with
            | Some _ => mkComponent (comp m) (listeners m ∖ list_to_set domEvents)
            | None => m
            end in
  mkComponent (clearInactivity (comp m1)) (listeners m1).

(** The DOM event type a turn is delivered under; timers, settlements and the
    watcher do not go through a listener. *)
Definition eventType (ev : Event) : option string :=
  match ev with
  | TouchStart _ _ => Some "touchstart"
  | TouchMove _ _ => Some "touchmove"
  | TouchEnd => Some "touchend"
  | MouseDown _ _ => Some "mousedown"
  | MouseMove _ _ => Some "mousemove"
  | MouseUp => Some "mouseup"
  | MouseLeave => Some "mouseleave"
  | Wheel _ _ _ => Some "wheel"
  | TimerFire _ | Settle _ | LoadingChanged _ => None
  end.

(** One turn for a component: a DOM event reaches its handler only through a
    registered listener. *)
Definition deliver (e : Env) (ev : Event) (m : Component) : option Component :=
  match eventType ev with
  | Some ty =>
      if decide (ty ∈ listeners m) then
        match dispatch e ev (comp m) with
        | Some c => Some (mkComponent (after (comp m) c) (listeners m))
        | None => None
        end
      else Some m
  | None =>
      match dispatch e ev (comp m) with
      | Some c => Some (mkComponent (after (comp m) c) (listeners m))
      | None => None
      end
  end.

Fixpoint runMounted (tr : list (Env * Event)) (m : Component) : option Component :=
  match tr with
  | [] => Some m
  | (e, ev) :: rest =>
      match deliver e ev m with
      | Some m' => runMounted rest m'
      | None => None
      end
  end.

(** ** Invariants and classes of turns *)

(** Distances are never negative. *)
Definition nonneg (s : State) : Prop :=
  0 <= pullDistance s /\ 0 <= accumulatedDelta s.

(** Every pending inactivity callback is the one whose handle the component
    holds. *)
Definition inactivity_recorded (s : State) : Prop :=
  forall id due, timers s !! id = Some (due, CbInactivity) ->
                 inactivityTimer s = Some id.

(** No inactivity callback is pending. *)
Definition no_inactivity (s : State) : Prop :=
  forall id due, timers s !! id <> Some (due, CbInactivity).

(** Move events of the touch and mouse adapters. *)
Definition isMove (ev : Event) : bool :=
  match ev with
  | TouchMove _ _ | MouseMove _ _ => true
  | _ => false
  end.

(** Start, move and wheel events: the ones guarded by [isRefreshing]. *)
Definition isGuardedInput (ev : Event) : bool :=
  match ev with
  | TouchStart _ _ | TouchMove _ _ | MouseDown _ _ | MouseMove _ _
  | Wheel _ _ _ => true
  | _ => false
  end.

(** Turns that can call the refresh callback: releases, wheel events and
    timer runs. *)
Definition mayRefresh (ev : Event) : bool :=
  match ev with
  | TouchEnd | MouseUp | MouseLeave | Wheel _ _ _ | TimerFire _ => true
  | _ => false
  end.

(** A step that starts no inactivity callback and keeps the recorded handle. *)
Definition no_new_inactivity (s s' : State) : Prop :=
  inactivityTimer s' = inactivityTimer s
  /\ forall id due, timers s' !! id = Some (due, CbInactivity) ->
                    timers s !! id = Some (due, CbInactivity).

(** The handle kept in [inactivityTimer] never names a timer of another kind. *)
Definition handle_own (s : State) : Prop :=
  forall id due cb,
    inactivityTimer s = Some id -> timers s !! id = Some (due, cb) ->
    cb = CbInactivity.

(** Move and wheel events that can be cancelled. *)
Definition cancelableInput (ev : Event) : bool :=
  match ev with
  | TouchMove _ c | MouseMove _ c | Wheel _ _ c => c
  | _ => false
  end.
(** * Properties *)

(** Reading a field through the setters, without unfolding anything else. *)
Ltac simpl_state :=
  cbn [pullDistance isRefreshing isPulling startY isDragging lastWheelTime
       accumulatedDelta lastWheelEventTime inactivityTimer timers nextTimer
       pending refreshCalls prevented
       set_pullDistance set_isRefreshing set_isPulling set_startY
       set_isDragging set_lastWheelTime set_accumulatedDelta
       set_lastWheelEventTime set_inactivityTimer set_timers set_nextTimer
       set_pending set_refreshCalls set_prevented] in *.

(** ** Comparisons *)

Lemma Qleb_le x y : Qleb x y = true <-> x <= y.
Proof. apply Qle_bool_iff. Qed.

Lemma Qleb_gt x y : Qleb x y = false <-> y < x.
Proof.
  unfold Qleb. split.
  - intros H. apply Qnot_le_lt. intros Hle. apply Qle_bool_iff in Hle. congruence.
  - intros H. destruct (Qle_bool x y) eqn:E; [|reflexivity].
    apply Qle_bool_iff in E. exfalso. exact (Qlt_not_le _ _ H E).
Qed.

Lemma Qltb_lt x y : Qltb x y = true <-> x < y.
Proof.
  unfold Qltb. rewrite negb_true_iff. apply (Qleb_gt y x).
Qed.

Lemma Qltb_ge x y : Qltb x y = false <-> y <= x.
Proof.
  unfold Qltb. rewrite negb_false_iff. apply (Qleb_le y x).
Qed.

(** ** The scroll-context probe *)

Lemma overflow_scrolls_spec o :
  overflow_scrolls o = true <-> o = "auto" \/ o = "scroll".
Proof.
  unfold overflow_scrolls. rewrite orb_true_iff, !String.eqb_eq. tauto.
Qed.

Lemma scrolled_region_test n :
  scrolled_region n <->
  (nodeType n =? 1)%Z = true
  /\ overflow_scrolls (overflowY n) && Qltb 0 (scrollTop n) = true.
Proof.
  unfold scrolled_region.
  rewrite andb_true_iff, overflow_scrolls_spec, Qltb_lt, Z.eqb_eq. tauto.
Qed.

Lemma isScrollable_spec c chain :
  isScrollable c chain = true <-> inside_scrolled_region c chain.
Proof.
  induction chain as [|n chain IH]; simpl.
  - split; [discriminate|]. intros (below & m & above & E & _).
    destruct below; discriminate.
  - destruct (is_container c n) eqn:Hc.
    + split; [discriminate|]. intros (below & m & above & E & Hf & _).
      destruct below as [|b below]; simpl in E; injection E as <- _;
        inversion Hf; congruence.
    + assert (Hcons : inside_scrolled_region c chain ->
                      inside_scrolled_region c (n :: chain)).
      { intros (below & m & above & -> & Hf & Hm).
        exists (n :: below), m, above. split; [reflexivity|].
        split; [constructor; assumption | assumption]. }
      assert (Htail : inside_scrolled_region c (n :: chain) ->
                      scrolled_region n \/ inside_scrolled_region c chain).
      { intros (below & m & above & E & Hf & Hm).
        destruct below as [|b below]; simpl in E; injection E as <- ->.
        - left; assumption.
        - right. exists below, m, above. inversion Hf; auto. }
      pose proof (scrolled_region_test n) as Ht.
      destruct (nodeType n =? 1)%Z; simpl.
      * destruct (overflow_scrolls (overflowY n) && Qltb 0 (scrollTop n)).
        -- split; [intros _|reflexivity].
           exists [], n, chain. split; [reflexivity|].
           split; [repeat constructor; assumption | apply Ht; auto].
        -- rewrite IH. split; [assumption|]. intros H.
           destruct (Htail H) as [H1|H1]; [|assumption].
           apply Ht in H1. destruct H1; discriminate.
      * rewrite IH. split; [assumption|]. intros H.
        destruct (Htail H) as [H1|H1]; [|assumption].
        apply Ht in H1. destruct H1; discriminate.
Qed.

(** ** Frame lemmas for the runtime primitives *)

Lemma set_isDragging_same s : isDragging s = false -> set_isDragging false s = s.
Proof. destruct s; simpl; intros ->; reflexivity. Qed.

Lemma handleEnd_not_pulling e s :
  isPulling s = false -> handleEnd e s = set_isDragging false s.
Proof. unfold handleEnd; simpl. intros ->. reflexivity. Qed.

(** ** Start, move and end of a press (touch and mouse) *)

(** A press at 100 on the paragraph, then a move to 250: Pulling at 60. *)
Example pull_to_250 :
  run [(atTop 10, TouchStart [mkTouch 100] paragraph);
       (atTop 20, TouchMove [mkTouch 250] true)] initial
  = Some pulledTo60.
Proof. reflexivity. Qed.

(** C4, as stated, fails: with a pull in progress (GestureState is Pulling,
    not Idle) a second [onStart] is accepted all the same and re-records
    [startY]. *)
Lemma handleStart_accepted_while_pulling :
  exists s,
    run [(atTop 10, TouchStart [mkTouch 100] paragraph);
         (atTop 20, TouchMove [mkTouch 250] true)] initial = Some s
    /\ gestureState s = Pulling
    /\ startY s = 100
    /\ startY (handleStart (atTop 30) 250 paragraph s) = 250
    /\ handleStart (atTop 30) 250 paragraph s <> s.
Proof.
  eexists. split; [reflexivity|]. repeat split; try reflexivity.
  intros H. apply (f_equal startY) in H. discriminate H.
Qed.

(** C4, amended: [onStart] is accepted exactly when the component is not
    Refreshing, the page is at most 5 from its top and the target is not
    inside a scrolled nested region below the container; when accepted it
    records [startY = y] and sets the Dragging flag, touching nothing else;
    otherwise it changes nothing. *)
Theorem handleStart_accepts e y target s :
  (isRefreshing s = false /\ scrollY e <= 5
   /\ ~ inside_scrolled_region (containerRef e) target)
  /\ handleStart e y target s = set_isDragging true (set_startY y s)
  \/
  ~ (isRefreshing s = false /\ scrollY e <= 5
     /\ ~ inside_scrolled_region (containerRef e) target)
  /\ handleStart e y target s = s.
Proof.
  unfold handleStart.
  pose proof (Qleb_le (scrollY e) 5) as Hs.
  pose proof (isScrollable_spec (containerRef e) target) as Hp.
  destruct (Qleb (scrollY e) 5); simpl.
  - destruct (isRefreshing s); simpl.
    + right. split; [|reflexivity]. intros (H & _). discriminate.
    + destruct (isScrollable (containerRef e) target).
      * right. split; [|reflexivity]. intros (_ & _ & H). apply H, Hp. reflexivity.
      * left. split; [|reflexivity]. split; [reflexivity|].
        split; [apply Hs; reflexivity|]. intros H. apply Hp in H. discriminate.
  - right. split; [|reflexivity]. intros (_ & H & _). apply Hs in H. discriminate.
Qed.

(** C3, as stated, fails: after a press that has not become a pull, [onEnd]
    clears the Dragging flag. *)
Lemma handleEnd_clears_dragging :
  exists s,
    run [(atTop 10, MouseDown 100 paragraph)] initial = Some s
    /\ isPulling s = false
    /\ gestureState s = Dragging
    /\ gestureState (handleEnd (atTop 20) s) = Idle
    /\ handleEnd (atTop 20) s <> s.
Proof.
  eexists. split; [reflexivity|]. repeat split; try reflexivity.
  intros H. apply (f_equal isDragging) in H. discriminate H.
Qed.

(** C3, amended: with the Pulling flag clear (as it is in the Idle and
    Dragging states), [onEnd] ends the press (the Dragging flag is cleared)
    and does nothing else: distance, Pulling and Refreshing flags, timers and
    pending refreshes are unchanged and the refresh callback is not called;
    it changes nothing at all when no press was under way. *)
Theorem handleEnd_without_pull e s :
  isPulling s = false ->
  handleEnd e s = set_isDragging false s
  /\ isDragging (handleEnd e s) = false
  /\ pullDistance (handleEnd e s) = pullDistance s
  /\ isPulling (handleEnd e s) = false
  /\ isRefreshing (handleEnd e s) = isRefreshing s
  /\ refreshCalls (handleEnd e s) = refreshCalls s
  /\ timers (handleEnd e s) = timers s
  /\ pending (handleEnd e s) = pending s
  /\ (isDragging s = false -> handleEnd e s = s).
Proof.
  intros Hp. rewrite (handleEnd_not_pulling e s Hp). simpl.
  repeat split; try assumption. apply set_isDragging_same.
Qed.

Lemma handleEnd_without_pull_witness :
  isPulling pressedAt100 = false
  /\ gestureState pressedAt100 = Dragging
  /\ handleEnd (atTop 20) pressedAt100 = set_isDragging false pressedAt100
  /\ gestureState (handleEnd (atTop 20) pressedAt100) = Idle
  /\ refreshCalls (handleEnd (atTop 20) pressedAt100) = 0%nat.
Proof.
  destruct (handleEnd_without_pull (atTop 20) pressedAt100 eq_refl)
    as (H & _ & _ & _ & _ & Hn & _).
  split; [reflexivity|]. split; [reflexivity|]. split; [exact H|].
  split; [rewrite H; reflexivity|exact Hn].
Defined.

(** The Pulling flag can outlive the Pulling state: when [isLoading] turns
    true in the middle of a pull the component shows Refreshing with the flag
    still set, and a release then goes through the threshold test and calls
    the refresh callback. *)
Example release_with_flag_set_while_refreshing :
  refreshStatus <$> run [(atTop 10, TouchStart [mkTouch 100] paragraph);
                         (atTop 20, TouchMove [mkTouch 250] true);
                         (atTopLoading 25, LoadingChanged true)] initial
  = Some (Refreshing, 150 * (4#10), 0%nat, 0%nat)
  /\ refreshStatus <$> run [(atTop 10, TouchStart [mkTouch 100] paragraph);
                            (atTop 20, TouchMove [mkTouch 250] true);
                            (atTopLoading 25, LoadingChanged true);
                            (atTopLoading 30, TouchEnd)] initial
     = Some (Refreshing, 60, 1%nat, 1%nat).
Proof. split; vm_compute; reflexivity. Qed.

(** C10: the touch start and move handlers read [touches[0]]: with an empty
    touch list they throw, with a first touch point they complete with what
    [handleStart] and [handleMove] do at its [clientY]; the end handler reads
    no coordinate and always completes. *)
Theorem touch_handlers_need_a_touch_point :
  (forall e target s, handleTouchStart e [] target s = TypeError)
  /\ (forall e c s, handleTouchMove e [] c s = TypeError)
  /\ (forall e t ts target s,
        handleTouchStart e (t :: ts) target s
        = Normal (handleStart e (clientY t) target s))
  /\ (forall e t ts c s,
        handleTouchMove e (t :: ts) c s = Normal (handleMove e (clientY t) c s))
  /\ (forall e touches target s,
        (exists s', handleTouchStart e touches target s = Normal s')
        <-> touches <> [])
  /\ (forall e touches c s,
        (exists s', handleTouchMove e touches c s = Normal s') <-> touches <> [])
  /\ (forall e s, handleTouchEnd e s = Normal (handleEnd e s)).
Proof.
  repeat split; try reflexivity.
  - intros (s' & H) ->. discriminate H.
  - destruct touches; [congruence|]. intros _. eexists. reflexivity.
  - intros (s' & H) ->. discriminate H.
  - destruct touches; [congruence|]. intros _. eexists. reflexivity.
Qed.

(** ** The resistance curve of a drag *)

Section Move.
Variables (e : Env) (y : Q) (c : bool) (s : State).
Hypothesis Hdrag : isDragging s = true.
Hypothesis Hidle : isRefreshing s = false.
Hypothesis Htop : scrollY e <= 5.

Lemma handleMove_down :
  0 < y - startY s ->
  handleMove e y c s
  = set_pullDistance ((y - startY s) * (4#10))
      (set_isPulling true (preventDefaultIf c s)).
Proof.
  intros Hd. unfold handleMove. rewrite Hdrag, Hidle. simpl.
  apply Qltb_lt in Hd. apply Qleb_le in Htop. rewrite Hd, Htop. reflexivity.
Qed.

Lemma handleMove_level :
  y - startY s == 0 ->
  handleMove e y c s = set_pullDistance 0 (set_isPulling false s).
Proof.
  intros Hd. unfold handleMove. rewrite Hdrag, Hidle. simpl.
  assert (H1 : Qltb 0 (y - startY s) = false) by (apply Qltb_ge; lra).
  assert (H2 : Qltb (y - startY s) 0 = false) by (apply Qltb_ge; lra).
  rewrite H1, H2. reflexivity.
Qed.

Lemma handleMove_back :
  y - startY s < 0 ->
  handleMove e y c s
  = set_isDragging false (set_pullDistance 0 (set_isPulling false s)).
Proof.
  intros Hd. unfold handleMove. rewrite Hdrag, Hidle. simpl.
  assert (H1 : Qltb 0 (y - startY s) = false) by (apply Qltb_ge; lra).
  apply Qltb_lt in Hd. rewrite H1, Hd. reflexivity.
Qed.
End Move.

Lemma handleMove_no_drag e y c s : isDragging s = false -> handleMove e y c s = s.
Proof. unfold handleMove. intros ->. reflexivity. Qed.

Lemma preventDefaultIf_frame b s :
  pullDistance (preventDefaultIf b s) = pullDistance s
  /\ isRefreshing (preventDefaultIf b s) = isRefreshing s
  /\ isPulling (preventDefaultIf b s) = isPulling s
  /\ startY (preventDefaultIf b s) = startY s
  /\ isDragging (preventDefaultIf b s) = isDragging s.
Proof. destruct b; repeat split. Qed.

Lemma preventDefaultIf_full b s :
  pullDistance (preventDefaultIf b s) = pullDistance s
  /\ isRefreshing (preventDefaultIf b s) = isRefreshing s
  /\ isPulling (preventDefaultIf b s) = isPulling s
  /\ accumulatedDelta (preventDefaultIf b s) = accumulatedDelta s
  /\ timers (preventDefaultIf b s) = timers s
  /\ refreshCalls (preventDefaultIf b s) = refreshCalls s
  /\ lastWheelTime (preventDefaultIf b s) = lastWheelTime s.
Proof. destruct b; repeat split. Qed.

Lemma Qmax_0_pos d : 0 < d -> Qmax 0 d = d.
Proof.
  intros H. unfold Qmax, GenericMinMax.gmax.
  assert (E : Qcompare 0 d = Lt) by (apply Qlt_alt; assumption).
  rewrite E. reflexivity.
Qed.

(** The distance shown after a processed move, as a function of [diff]. *)
Lemma handleMove_distance e y c s :
  isDragging s = true -> isRefreshing s = false -> scrollY e <= 5 ->
  pullDistance (handleMove e y c s) == Qmax 0 (y - startY s) * (4#10)
  /\ startY (handleMove e y c s) = startY s
  /\ isRefreshing (handleMove e y c s) = false
  /\ (isDragging (handleMove e y c s) = false -> y - startY s < 0).
Proof.
  intros Hd Hr Ht.
  destruct (Q_dec (y - startY s) 0) as [[Hneg|Hpos]|Hz].
  - rewrite handleMove_back by assumption. simpl.
    rewrite Q.max_l by lra. repeat split; auto; lra.
  - rewrite handleMove_down by assumption. simpl.
    destruct (preventDefaultIf_frame c s) as (_ & Hr' & _ & Hs' & Hd').
    rewrite Qmax_0_pos, Hs', Hr', Hd' by assumption.
    repeat split; auto; congruence.
  - rewrite handleMove_level by assumption. simpl.
    rewrite Q.max_l by lra. repeat split; auto; try lra; congruence.
Qed.

Lemma Qmax_0_mono a b : a <= b -> Qmax 0 a * (4#10) <= Qmax 0 b * (4#10).
Proof.
  intros H. apply Qmult_le_compat_r; [|discriminate].
  apply Q.max_le_compat_l. assumption.
Qed.

(** Two successive samples of one drag. *)
Lemma handleMove_monotone e1 e2 y1 y2 c1 c2 s :
  isDragging s = true -> isRefreshing s = false ->
  scrollY e1 <= 5 -> scrollY e2 <= 5 ->
  let s1 := handleMove e1 y1 c1 s in
  let s2 := handleMove e2 y2 c2 s1 in
  (y1 <= y2 -> pullDistance s1 <= pullDistance s2)
  /\ (y2 <= y1 -> pullDistance s2 <= pullDistance s1).
Proof.
  intros Hd Hr H1 H2 s1 s2.
  destruct (handleMove_distance e1 y1 c1 s Hd Hr H1) as (Hp1 & Hs1 & Hr1 & Hc1).
  fold s1 in Hp1, Hs1, Hr1, Hc1.
  destruct (isDragging s1) eqn:Hd1.
  - destruct (handleMove_distance e2 y2 c2 s1 Hd1 Hr1 H2) as (Hp2 & _).
    fold s2 in Hp2. rewrite Hp1, Hp2, Hs1.
    split; intros H; apply Qmax_0_mono; lra.
  - assert (E : s2 = s1) by (apply handleMove_no_drag; assumption).
    rewrite E. split; intros _; apply Qle_refl.
Qed.

(** C5: a move processed during an accepted drag (Dragging flag set, not
    Refreshing, page at most 5 from its top), with [diff = y - startY]:
    [diff > 0] sets the distance to [diff * 0.4] and Pulling; [diff <= 0]
    sets the distance to 0 and clears Pulling, and [diff < 0] also ends the
    drag; so the distance is [max(0, diff) * 0.4] at every sample, and over
    successive samples it moves the way [diff] moves. *)
Theorem handleMove_resistance e y c s :
  isDragging s = true -> isRefreshing s = false -> scrollY e <= 5 ->
  let diff := y - startY s in
  let s' := handleMove e y c s in
  (0 < diff ->
     pullDistance s' = diff * (4#10) /\ isPulling s' = true
     /\ isDragging s' = true)
  /\ (diff <= 0 -> pullDistance s' = 0 /\ isPulling s' = false)
  /\ (diff < 0 -> isDragging s' = false)
  /\ (isPulling s' = true -> pullDistance s' = Qmax 0 diff * (4#10))
  /\ pullDistance s' == Qmax 0 diff * (4#10)
  /\ (forall e2 y2 c2, scrollY e2 <= 5 ->
        (y <= y2 -> pullDistance s' <= pullDistance (handleMove e2 y2 c2 s'))
        /\ (y2 <= y -> pullDistance (handleMove e2 y2 c2 s') <= pullDistance s')).
Proof.
  intros Hd Hr Ht diff s'.
  assert (Hpos : 0 < diff ->
            pullDistance s' = diff * (4#10) /\ isPulling s' = true
            /\ isDragging s' = true).
  { intros H. unfold s'. rewrite handleMove_down by assumption. simpl.
    destruct (preventDefaultIf_frame c s) as (_ & _ & _ & _ & Hd').
    rewrite Hd'. auto. }
  assert (Hnon : diff <= 0 -> pullDistance s' = 0 /\ isPulling s' = false).
  { intros H. unfold s'. destruct (Qle_lt_or_eq _ _ H) as [Hlt|Heq].
    - rewrite handleMove_back by assumption. split; reflexivity.
    - rewrite handleMove_level by assumption. split; reflexivity. }
  repeat split.
  - apply Hpos; assumption.
  - apply Hpos; assumption.
  - apply Hpos; assumption.
  - apply Hnon; assumption.
  - apply Hnon; assumption.
  - intros H. unfold s'. rewrite handleMove_back by assumption. reflexivity.
  - intros Hp. destruct (Qlt_le_dec 0 diff) as [H|H].
    + rewrite Qmax_0_pos by assumption. apply Hpos; assumption.
    + destruct (Hnon H) as (_ & Hf). congruence.
  - apply (handleMove_distance e y c s); assumption.
  - apply (handleMove_monotone e e2 y y2 c c2 s); assumption.
  - apply (handleMove_monotone e e2 y y2 c c2 s); assumption.
Qed.

Lemma handleMove_resistance_witness :
  pullDistance
    (handleMove (atTop 20) 250 true (handleStart (atTop 10) 100 paragraph initial))
  == 60.
Proof.
  pose proof (handleMove_resistance (atTop 20) 250 true
                (handleStart (atTop 10) 100 paragraph initial)
                eq_refl eq_refl ltac:(discriminate)) as H.
  simpl in H. destruct H as (_ & _ & _ & _ & H & _).
  rewrite H. reflexivity.
Defined.

(** ** Release: [handleEnd] and [executeRefresh] *)

Lemma runFinally_frame k e s :
  pullDistance (runFinally k e s) = pullDistance s
  /\ isRefreshing (runFinally k e s) = isRefreshing s
  /\ isPulling (runFinally k e s) = isPulling s
  /\ isDragging (runFinally k e s) = isDragging s
  /\ refreshCalls (runFinally k e s) = refreshCalls s
  /\ pending (runFinally k e s) = pending s
  /\ accumulatedDelta (runFinally k e s) = accumulatedDelta s.
Proof. destruct k; simpl; [|destruct (isLoading e)]; repeat split. Qed.

Lemma awaitRefresh_frame k e s :
  pullDistance (awaitRefresh k e s) = pullDistance s
  /\ isRefreshing (awaitRefresh k e s) = isRefreshing s
  /\ isPulling (awaitRefresh k e s) = isPulling s
  /\ isDragging (awaitRefresh k e s) = isDragging s
  /\ refreshCalls (awaitRefresh k e s) = S (refreshCalls s)
  /\ accumulatedDelta (awaitRefresh k e s) = accumulatedDelta s.
Proof.
  unfold awaitRefresh. destruct (onRefreshThrows e).
  - destruct (runFinally_frame k e (set_refreshCalls (S (refreshCalls s)) s))
      as (-> & -> & -> & -> & -> & _ & ->). repeat split.
  - repeat split.
Qed.

(** A release over the threshold. *)
Lemma handleEnd_over e s :
  isPulling s = true -> threshold e <= pullDistance s ->
  handleEnd e s
  = awaitRefresh FinallyEnd e
      (set_pullDistance (threshold e)
         (set_isRefreshing true (set_isPulling false (set_isDragging false s)))).
Proof.
  intros Hp Ht. unfold handleEnd. simpl. rewrite Hp. simpl.
  apply Qleb_le in Ht. rewrite Ht. reflexivity.
Qed.

(** A release under the threshold. *)
Lemma handleEnd_under e s :
  isPulling s = true -> pullDistance s < threshold e ->
  handleEnd e s
  = set_pullDistance 0 (set_isPulling false (set_isDragging false s)).
Proof.
  intros Hp Ht. unfold handleEnd. simpl. rewrite Hp. simpl.
  apply Qleb_gt in Ht. rewrite Ht. reflexivity.
Qed.



(** While a refresh started by a release is in flight, or settling, the
    turns other than the promise's settlement and the reset timer leave the
    component as it is. *)
Lemma refreshing_turn_frame e ev s c :
  isRefreshing s = true -> isPulling s = false -> isDragging s = false ->
  isLoadingChange ev = false ->
  (forall id, ev <> TimerFire id) -> (forall i, ev <> Settle i) ->
  dispatch e ev s = Some c -> after s c = s.
Proof.
  intros Hr Hp Hd Hq Ht Hs H.
  destruct ev; simpl in H; try discriminate Hq;
    try (exfalso; eapply Ht; reflexivity);
    try (exfalso; eapply Hs; reflexivity);
    injection H as <-; simpl.
  - destruct touches; simpl; [reflexivity|].
    unfold handleStart. rewrite Hr, andb_false_r. reflexivity.
  - destruct touches; simpl; [reflexivity|].
    apply handleMove_no_drag; assumption.
  - rewrite handleEnd_not_pulling by assumption. apply set_isDragging_same, Hd.
  - unfold handleMouseDown, handleStart. rewrite Hr, andb_false_r. reflexivity.
  - unfold handleMouseMove. rewrite Hd. reflexivity.
  - unfold handleMouseUp. rewrite handleEnd_not_pulling by assumption.
    apply set_isDragging_same, Hd.
  - unfold handleMouseLeave. rewrite handleEnd_not_pulling by assumption.
    apply set_isDragging_same, Hd.
  - unfold handleWheel. rewrite Hr. reflexivity.
Qed.








(** The scenario end to end: Refreshing at the threshold from the release
    until the reset, one call of the refresh callback, Idle at 0 afterwards;
    the reset timer cannot run at 1399. *)
Example release_scenario :
  gestureView <$> run (take 3 releaseScenario) initial = Some (Refreshing, 60, 1%nat)
  /\ gestureView <$> run (take 4 releaseScenario) initial
     = Some (Refreshing, 60, 1%nat)
  /\ gestureView <$> run releaseScenario initial = Some (Idle, 0, 1%nat)
  /\ run (take 4 releaseScenario ++ [(atTop 1399, TimerFire 1)]) initial = None.
Proof. repeat split; vm_compute; reflexivity. Qed.

(** The two [finally] blocks do the same when [isLoading] is false. *)
Lemma finally_blocks_agree e s :
  isLoading e = false -> runFinally FinallyExec e s = runFinally FinallyEnd e s.
Proof. intros H. simpl. rewrite H. reflexivity. Qed.

(** The [finally] block of [handleEnd] schedules the reset whatever
    [isLoading] is. *)
Lemma finally_end_schedules e s :
  timers (runFinally FinallyEnd e s)
  = <[nextTimer s := ((now e + 500)%Z, CbSettle)]> (timers s).
Proof. reflexivity. Qed.

(** [executeRefresh] leaves the reset to the watcher when [isLoading] is true. *)
Lemma finally_exec_defers e s :
  isLoading e = true -> runFinally FinallyExec e s = s.
Proof. intros H. simpl. rewrite H. reflexivity. Qed.

(** What [executeRefresh] does before it suspends is what a release over the
    threshold does, the Dragging flag apart. *)
Lemma executeRefresh_like_release e s :
  isPulling s = true -> threshold e <= pullDistance s ->
  onRefreshThrows e = false ->
  handleEnd e s
  = set_pending (pending s ++ [FinallyEnd])
      (set_refreshCalls (S (refreshCalls s))
         (set_pullDistance (threshold e)
            (set_isRefreshing true (set_isPulling false (set_isDragging false s)))))
  /\ executeRefresh e s
     = set_pending (pending s ++ [FinallyExec])
         (set_refreshCalls (S (refreshCalls s))
            (set_pullDistance (threshold e)
               (set_isRefreshing true (set_isPulling false s)))).
Proof.
  intros Hp Ht Hth. rewrite handleEnd_over by assumption.
  unfold executeRefresh, awaitRefresh. rewrite Hth. split; reflexivity.
Qed.

(** C2, the code at the failing input: the same pull released through
    [handleEnd] and through [executeRefresh], the promise settling while
    [isLoading] is true.  [executeRefresh] schedules nothing and leaves the
    reset to the watcher; [handleEnd] schedules the 500ms reset all the
    same, which then ends Refreshing under a caller that is still loading. *)
Theorem handleEnd_ignores_isLoading :
  let viaEnd := handleEnd (atTop 30) pulledTo60 in
  let viaExec := executeRefresh (atTop 30) pulledTo60 in
  (map_to_list ∘ timers) <$> run [(atTopLoading 900, Settle 0)] viaEnd
  = Some [(1%positive, (1400%Z, CbSettle))]
  /\ (map_to_list ∘ timers) <$> run [(atTopLoading 900, Settle 0)] viaExec
     = Some []
  /\ isRefreshing <$> run [(atTopLoading 900, Settle 0);
                           (atTopLoading 1400, TimerFire 1)] viaEnd
     = Some false
  /\ isRefreshing <$> run [(atTopLoading 900, Settle 0)] viaExec = Some true.
Proof. repeat split; vm_compute; reflexivity. Qed.

(** ** The wheel adapter *)

Lemma resetInactivityTimer_frame e s :
  let s' := resetInactivityTimer e s in
  pullDistance s' = pullDistance s
  /\ isRefreshing s' = isRefreshing s
  /\ isPulling s' = isPulling s
  /\ isDragging s' = isDragging s
  /\ lastWheelTime s' = lastWheelTime s
  /\ accumulatedDelta s' = accumulatedDelta s
  /\ refreshCalls s' = refreshCalls s
  /\ prevented s' = prevented s
  /\ pending s' = pending s
  /\ inactivityTimer s' = Some (nextTimer s)
  /\ nextTimer s' = Pos.succ (nextTimer s)
  /\ timers s'
     = <[nextTimer s := ((now e + 50)%Z, CbInactivity)]>
         (match inactivityTimer s with
          | Some old => delete old (timers s)
          | None => timers s
          end).
Proof.
  unfold resetInactivityTimer, clearInactivity. simpl.
  destruct (inactivityTimer s); simpl; repeat split.
Qed.

Lemma handleWheel_passes e d target c s :
  isRefreshing s = false -> scrollY e <= 0 ->
  isScrollable (containerRef e) target = false ->
  handleWheel e d target c s = wheelBody e d c s.
Proof.
  intros Hr Ht Hi. unfold handleWheel. rewrite Hr, Hi.
  apply Qltb_ge in Ht. rewrite Ht. reflexivity.
Qed.

Section UpwardWheel.
Variables (e : Env) (d : Q) (c : bool) (s : State).
Hypothesis Hup : d < 0.

(** Inside the throttle window: accumulate only. *)
Lemma wheelBody_throttled :
  (now e - lastWheelTime s < 16)%Z ->
  wheelBody e d c s
  = set_accumulatedDelta (accumulatedDelta s + (- d) * (3#10))
      (resetInactivityTimer e s).
Proof.
  intros Hw. unfold wheelBody.
  destruct (resetInactivityTimer_frame e s)
    as (_ & _ & _ & _ & Hl & Ha & _).
  rewrite Hl, Ha. apply Qltb_lt in Hup. rewrite Hup.
  apply Z.ltb_lt in Hw. rewrite Hw. reflexivity.
Qed.

Lemma wheelBody_flush :
  (16 <= now e - lastWheelTime s)%Z ->
  let s9 :=
    set_pullDistance (flushed e d s)
      (set_accumulatedDelta 0
         (set_isPulling true
            (preventDefaultIf (Qltb 0 (pullDistance s) && c)
               (set_lastWheelTime (now e) (resetInactivityTimer e s))))) in
  wheelBody e d c s
  = if Qleb (threshold e) (flushed e d s) && Qltb 50 (- d)
    then executeRefresh e (clearInactivity s9)
    else s9.
Proof.
  intros Hw. apply Qltb_lt in Hup. apply Z.ltb_ge in Hw.
  unfold wheelBody, flushed, resetInactivityTimer, clearInactivity.
  destruct s as [pd r p y0 dr lw acc lwe [old|] tm nx pe rc pv];
    simpl in *; rewrite Hup, Hw;
    destruct (Qltb 0 pd && c); reflexivity.
Qed.
End UpwardWheel.

Lemma clearInactivity_frame s :
  pullDistance (clearInactivity s) = pullDistance s
  /\ isRefreshing (clearInactivity s) = isRefreshing s
  /\ isPulling (clearInactivity s) = isPulling s
  /\ isDragging (clearInactivity s) = isDragging s
  /\ lastWheelTime (clearInactivity s) = lastWheelTime s
  /\ accumulatedDelta (clearInactivity s) = accumulatedDelta s
  /\ refreshCalls (clearInactivity s) = refreshCalls s
  /\ pending (clearInactivity s) = pending s
  /\ inactivityTimer (clearInactivity s) = inactivityTimer s
  /\ nextTimer (clearInactivity s) = nextTimer s.
Proof. unfold clearInactivity. destruct (inactivityTimer s) eqn:E; repeat split; auto. Qed.

Lemma executeRefresh_frame e s :
  pullDistance (executeRefresh e s) = threshold e
  /\ isRefreshing (executeRefresh e s) = true
  /\ isPulling (executeRefresh e s) = false
  /\ isDragging (executeRefresh e s) = isDragging s
  /\ refreshCalls (executeRefresh e s) = S (refreshCalls s)
  /\ accumulatedDelta (executeRefresh e s) = accumulatedDelta s.
Proof.
  unfold executeRefresh.
  set (s0 := set_pullDistance _ _).
  destruct (awaitRefresh_frame FinallyExec e s0) as (-> & -> & -> & -> & -> & ->).
  repeat split.
Qed.

(** The state an unthrottled upward event writes before line 229. *)
Lemma flush_state_fields e c s total :
  let s9 :=
    set_pullDistance total
      (set_accumulatedDelta 0
         (set_isPulling true
            (preventDefaultIf (Qltb 0 (pullDistance s) && c)
               (set_lastWheelTime (now e) (resetInactivityTimer e s))))) in
  pullDistance s9 = total /\ isPulling s9 = true
  /\ isRefreshing s9 = isRefreshing s
  /\ refreshCalls s9 = refreshCalls s
  /\ lastWheelTime s9 = now e
  /\ accumulatedDelta s9 = 0
  /\ inactivityTimer s9 = Some (nextTimer s)
  /\ nextTimer s9 = Pos.succ (nextTimer s)
  /\ timers s9 = timers (resetInactivityTimer e s).
Proof.
  destruct (resetInactivityTimer_frame e s)
    as (Fpd & Fr & Fp & _ & Fl & Fa & Fn & _ & _ & Fi & Fnx & _).
  destruct (Qltb 0 (pullDistance s) && c); cbn [preventDefaultIf]; simpl_state;
    rewrite Fr, Fn, Fi, Fnx; repeat split.
Qed.

(** A burst of throttled events only feeds the accumulator. *)
Lemma throttled_burst burst :
  forall s,
    isRefreshing s = false ->
    Forall (throttledUp (lastWheelTime s)) burst ->
    exists sb,
      run burst s = Some sb
      /\ pullDistance sb = pullDistance s
      /\ isPulling sb = isPulling s
      /\ isRefreshing sb = false
      /\ lastWheelTime sb = lastWheelTime s
      /\ refreshCalls sb = refreshCalls s
      /\ accumulatedDelta sb = scaledSum burst (accumulatedDelta s).
Proof.
  induction burst as [|[e ev] burst IH]; intros s Hr Hall.
  - exists s. repeat split; auto.
  - inversion Hall as [|? ? Hhd Htl]; subst.
    destruct ev; simpl in Hhd; try contradiction.
    destruct Hhd as (Hd & Hw & Ht & Hi).
    simpl. rewrite handleWheel_passes by assumption.
    rewrite wheelBody_throttled by assumption.
    destruct (resetInactivityTimer_frame e s)
      as (Hpd & Hr' & Hp & _ & Hl & Ha & Hn & _).
    set (s1 := set_accumulatedDelta _ _).
    destruct (IH s1) as (sb & Hrun & H1 & H2 & H3 & H4 & H5 & H6).
    + unfold s1. simpl_state. rewrite Hr'. assumption.
    + unfold s1. simpl_state. rewrite Hl. assumption.
    + exists sb. unfold s1 in *. simpl_state.
      rewrite Hpd in H1. rewrite Hp in H2. rewrite Hl in H4. rewrite Hn in H5.
      repeat split; assumption.
Qed.

(** C6, as stated, fails for a large delta: the event that flushes past the
    threshold with [-deltaY > 50] runs [executeRefresh] in the same turn, so
    the handler leaves the distance at the threshold and Pulling cleared. *)
Lemma wheel_flush_triggers_refresh :
  let s' := handleWheel (atTop 100) (-300) paragraph true initial in
  (16 <= now (atTop 100) - lastWheelTime initial)%Z
  /\ flushed (atTop 100) (-300) initial == 90
  /\ pullDistance s' == 60
  /\ ~ pullDistance s' == flushed (atTop 100) (-300) initial
  /\ isPulling s' = false
  /\ refreshCalls s' = 1%nat.
Proof. repeat split; discriminate. Qed.

(** C6, amended: an upward wheel event that passes the guards (not
    Refreshing, page at its top, target not inside a scrolled nested region).
    Less than 16ms after the last processed event it only adds
    [-deltaY * 0.3] to the accumulator, and so does each event of a burst;
    at or after 16ms the accumulator is zeroed and the distance becomes the
    previous distance plus the accumulator plus [-deltaY * 0.3], capped at
    twice the threshold, with Pulling set, unless that distance reaches the
    threshold with [-deltaY > 50]: then [executeRefresh] runs at once and
    leaves the distance at the threshold, Pulling cleared and Refreshing. *)
Theorem wheel_throttle s burst e d target c :
  isRefreshing s = false ->
  Forall (throttledUp (lastWheelTime s)) burst ->
  scrollY e <= 0 -> isScrollable (containerRef e) target = false -> d < 0 ->
  exists sb,
    run burst s = Some sb
    /\ pullDistance sb = pullDistance s
    /\ isPulling sb = isPulling s
    /\ refreshCalls sb = refreshCalls s
    /\ accumulatedDelta sb = scaledSum burst (accumulatedDelta s)
    /\ let s' := handleWheel e d target c sb in
       let total :=
         Qmin (pullDistance s + scaledSum burst (accumulatedDelta s)
               + (- d) * (3#10)) (threshold e * 2) in
       ((now e - lastWheelTime s < 16)%Z ->
          accumulatedDelta s' = accumulatedDelta sb + (- d) * (3#10)
          /\ pullDistance s' = pullDistance s
          /\ isPulling s' = isPulling s
          /\ isRefreshing s' = false
          /\ lastWheelTime s' = lastWheelTime s
          /\ refreshCalls s' = refreshCalls s)
       /\ ((16 <= now e - lastWheelTime s)%Z ->
           accumulatedDelta s' = 0
           /\ (~ (threshold e <= total /\ 50 < - d) ->
               pullDistance s' = total /\ isPulling s' = true
               /\ isRefreshing s' = false /\ lastWheelTime s' = now e
               /\ refreshCalls s' = refreshCalls s)
           /\ (threshold e <= total -> 50 < - d ->
               pullDistance s' = threshold e /\ isPulling s' = false
               /\ isRefreshing s' = true
               /\ refreshCalls s' = S (refreshCalls s))).
Proof.
  intros Hr Hall Ht Hi Hd.
  destruct (throttled_burst burst s Hr Hall)
    as (sb & Hrun & Hpd & Hp & Hrb & Hl & Hn & Ha).
  exists sb. repeat (split; [assumption|]).
  cbv zeta. rewrite handleWheel_passes by assumption.
  split.
  - intros Hw. rewrite wheelBody_throttled by (rewrite ?Hl; assumption).
    destruct (resetInactivityTimer_frame e sb)
      as (Fpd & Fr & Fp & _ & Fl & Fa & Fn & _).
    simpl_state. rewrite Fpd, Fr, Fp, Fl, Fn, Hpd, Hp, Hrb, Hl, Hn.
    repeat split.
  - intros Hw. rewrite wheelBody_flush by (rewrite ?Hl; assumption).
    assert (Ef : flushed e d sb
                 = Qmin (pullDistance s + scaledSum burst (accumulatedDelta s)
                         + (- d) * (3#10)) (threshold e * 2)).
    { unfold flushed. rewrite Hpd, Ha. reflexivity. }
    cbv zeta. rewrite Ef. set (total := Qmin _ _).
    destruct (flush_state_fields e c sb total) as (G1 & G2 & G3 & G4 & G5 & G6 & _).
    set (s9 := set_pullDistance total _) in *.
    destruct (Qleb (threshold e) total) eqn:E1;
      destruct (Qltb 50 (- d)) eqn:E2; cbn [andb].
    + destruct (executeRefresh_frame e (clearInactivity s9))
        as (X1 & X2 & X3 & _ & X5 & X6).
      destruct (clearInactivity_frame s9) as (_ & _ & _ & _ & _ & Y6 & Y7 & _).
      rewrite X1, X2, X3, X5, X6, Y6, Y7, G4, G6, Hn.
      split; [reflexivity|]. split; [|intros _ _; repeat split].
      intros H. exfalso. apply H. split; [apply Qleb_le|apply Qltb_lt]; assumption.
    + rewrite G1, G2, G3, G4, G5, G6, Hrb, Hn.
      split; [reflexivity|]. split; [intros _; repeat split|].
      intros _ H. apply Qltb_ge in E2. exfalso. apply (Qlt_not_le _ _ H E2).
    + rewrite G1, G2, G3, G4, G5, G6, Hrb, Hn.
      split; [reflexivity|]. split; [intros _; repeat split|].
      intros H _. apply Qleb_gt in E1. exfalso. apply (Qlt_not_le _ _ E1 H).
    + rewrite G1, G2, G3, G4, G5, G6, Hrb, Hn.
      split; [reflexivity|]. split; [intros _; repeat split|].
      intros H _. apply Qleb_gt in E1. exfalso. apply (Qlt_not_le _ _ E1 H).
Qed.

Lemma wheel_throttle_witness :
  exists sb,
    run smallBurst (handleWheel (atTop 100) (-20) paragraph true initial) = Some sb
    /\ pullDistance sb == 6
    /\ accumulatedDelta sb == 18
    /\ pullDistance (handleWheel (atTop 120) (-20) paragraph true sb) == 30.
Proof.
  assert (Hall : Forall
            (throttledUp
               (lastWheelTime (handleWheel (atTop 100) (-20) paragraph true initial)))
            smallBurst).
  { repeat constructor; discriminate. }
  destruct (wheel_throttle (handleWheel (atTop 100) (-20) paragraph true initial)
              smallBurst (atTop 120) (-20) paragraph true
              eq_refl Hall ltac:(discriminate) eq_refl eq_refl)
    as (sb & Hrun & Hpd & _ & _ & Ha & _ & Hflush).
  exists sb. split; [exact Hrun|].
  split; [rewrite Hpd; reflexivity|].
  split; [rewrite Ha; reflexivity|].
  destruct (Hflush ltac:(discriminate)) as (_ & Hno & _).
  destruct Hno as (H & _).
  - intros (_ & H). discriminate H.
  - rewrite H. reflexivity.
Defined.

(** ** The guards of the wheel handler *)

(** C8, as stated, fails: over a nested region that is scrolled, the wheel
    handler returns without resetting the distance or Pulling. *)
Lemma wheel_over_scrolled_region_keeps_pull :
  isRefreshing wheeledTo30 = false
  /\ inside_scrolled_region (containerRef (atTop 110)) listItem
  /\ pullDistance wheeledTo30 == 30
  /\ isPulling wheeledTo30 = true
  /\ handleWheel (atTop 110) (-100) listItem true wheeledTo30 = wheeledTo30
  /\ ~ pullDistance (handleWheel (atTop 110) (-100) listItem true wheeledTo30) == 0.
Proof.
  split; [reflexivity|]. split; [apply isScrollable_spec; reflexivity|].
  split; [reflexivity|]. split; [reflexivity|]. split; [reflexivity|].
  discriminate.
Qed.

(** C8, amended: a wheel event that arrives while not Refreshing.  With the
    page scrolled away from its top the handler zeroes the distance, clears
    Pulling and does nothing else (no timer, no accumulation); with the page
    at its top and the target inside a scrolled nested region it changes
    nothing at all. *)
Theorem wheel_guards e d target c s :
  isRefreshing s = false ->
  let s' := handleWheel e d target c s in
  (0 < scrollY e ->
     s' = set_isPulling false (set_pullDistance 0 s)
     /\ pullDistance s' = 0 /\ isPulling s' = false
     /\ timers s' = timers s /\ inactivityTimer s' = inactivityTimer s
     /\ accumulatedDelta s' = accumulatedDelta s
     /\ lastWheelTime s' = lastWheelTime s
     /\ refreshCalls s' = refreshCalls s)
  /\ (scrollY e <= 0 ->
      inside_scrolled_region (containerRef e) target -> s' = s).
Proof.
  intros Hr s'. unfold s', handleWheel. rewrite Hr. split.
  - intros H. apply Qltb_lt in H. rewrite H. repeat split.
  - intros H Hin. apply Qltb_ge in H. rewrite H.
    apply isScrollable_spec in Hin. rewrite Hin. reflexivity.
Qed.

Lemma wheel_guards_witness :
  isRefreshing wheeledTo30 = false
  /\ 0 < scrollY (scrolledDown 110)
  /\ pullDistance (handleWheel (scrolledDown 110) (-100) paragraph true wheeledTo30)
     = 0.
Proof.
  split; [reflexivity|]. split; [reflexivity|].
  destruct (wheel_guards (scrolledDown 110) (-100) paragraph true wheeledTo30 eq_refl)
    as (H & _).
  destruct (H eq_refl) as (_ & Hpd & _). exact Hpd.
Defined.

(** ** The timer table after a wheel event *)

Lemma triggersAtOnce_spec e d s :
  triggersAtOnce e d s = true
  <-> (16 <= now e - lastWheelTime s)%Z
      /\ threshold e <= flushed e d s /\ 50 < - d.
Proof.
  unfold triggersAtOnce.
  rewrite !andb_true_iff, negb_true_iff, Z.ltb_ge, Qleb_le, !Qltb_lt.
  split; [tauto|]. intros (H1 & H2 & H3). repeat split; try assumption. lra.
Qed.

Lemma executeRefresh_timers e s :
  inactivityTimer (executeRefresh e s) = inactivityTimer s
  /\ (timers (executeRefresh e s) = timers s
      \/ timers (executeRefresh e s)
         = <[nextTimer s := ((now e + 500)%Z, CbSettle)]> (timers s)).
Proof.
  unfold executeRefresh, awaitRefresh.
  destruct (onRefreshThrows e); [|split; [reflexivity|left; reflexivity]].
  unfold runFinally. destruct (isLoading e); cbn [negb].
  - split; [reflexivity|left; reflexivity].
  - split; [reflexivity|right; reflexivity].
Qed.

(** A downward wheel event leaves the timer table as the reset made it. *)
Lemma wheelBody_downward e d c s :
  Qltb d 0 = false ->
  let s' := wheelBody e d c s in
  inactivityTimer s' = Some (nextTimer s)
  /\ timers s' = timers (resetInactivityTimer e s)
  /\ refreshCalls s' = refreshCalls s
  /\ isRefreshing s' = isRefreshing s.
Proof.
  intros Hd. unfold wheelBody. rewrite Hd.
  destruct (resetInactivityTimer_frame e s)
    as (_ & Fr & _ & _ & _ & _ & Fn & _ & _ & Fi & _).
  cbv zeta.
  destruct (Qltb 0 (pullDistance (resetInactivityTimer e s)));
    [|rewrite Fr, Fn, Fi; repeat split].
  destruct (Qeq_bool (pullDistance
              (set_pullDistance
                 (Qmax 0 (pullDistance (resetInactivityTimer e s) - d * (1#2)))
                 (resetInactivityTimer e s))) 0);
    match goal with |- context [preventDefaultIf ?b ?x] =>
      destruct b; cbn [preventDefaultIf]; simpl_state;
      rewrite Fr, Fn, Fi; repeat split
    end.
Qed.

(** What a processed wheel event leaves in the timer table. *)
Lemma wheelBody_timers e d c s :
  let s' := wheelBody e d c s in
  inactivityTimer s' = Some (nextTimer s)
  /\ if triggersAtOnce e d s
     then timers s' !! nextTimer s = None
          /\ refreshCalls s' = S (refreshCalls s) /\ isRefreshing s' = true
     else timers s' = timers (resetInactivityTimer e s)
          /\ refreshCalls s' = refreshCalls s
          /\ isRefreshing s' = isRefreshing s.
Proof.
  cbv zeta. unfold triggersAtOnce.
  destruct (resetInactivityTimer_frame e s)
    as (_ & Fr & _ & _ & _ & _ & Fn & _ & _ & Fi & _).
  destruct (Qltb d 0) eqn:Hd; cbn [andb].
  - apply Qltb_lt in Hd.
    destruct (now e - lastWheelTime s <? 16)%Z eqn:Hw; cbn [andb negb].
    + apply Z.ltb_lt in Hw. rewrite wheelBody_throttled by assumption.
      simpl_state. rewrite Fr, Fn, Fi. repeat split.
    + apply Z.ltb_ge in Hw. rewrite wheelBody_flush by assumption. cbv zeta.
      destruct (flush_state_fields e c s (flushed e d s))
        as (_ & _ & G3 & G4 & _ & _ & G7 & G8 & G9).
      set (s9 := set_pullDistance (flushed e d s) _) in *.
      destruct (Qleb (threshold e) (flushed e d s) && Qltb 50 (- d)).
      * destruct (executeRefresh_frame e (clearInactivity s9))
          as (_ & X2 & _ & _ & X5 & _).
        destruct (executeRefresh_timers e (clearInactivity s9)) as (T1 & T2).
        destruct (clearInactivity_frame s9)
          as (_ & _ & _ & _ & _ & _ & Y7 & _ & Y9 & Y10).
        rewrite T1, X2, X5, Y7, Y9, G4, G7.
        split; [reflexivity|]. split; [|split; reflexivity].
        assert (Hc : timers (clearInactivity s9) !! nextTimer s = None).
        { unfold clearInactivity. rewrite G7. apply lookup_delete_eq. }
        destruct T2 as [-> | ->]; [exact Hc|].
        rewrite lookup_insert_ne; [exact Hc|]. rewrite Y10, G8. lia.
      * rewrite G3, G4, G7, G9. repeat split.
  - apply (wheelBody_downward e d c s Hd).
Qed.

(** ** Timer handles along a run *)

Lemma evolves_refl s : evolves s s.
Proof. split; [lia|]. split; intros ? H; left; exact H. Qed.

Lemma evolves_trans s1 s2 s3 : evolves s1 s2 -> evolves s2 s3 -> evolves s1 s3.
Proof.
  intros (A1 & A2 & A3) (B1 & B2 & B3). split; [lia|]. split.
  - intros id H. destruct (B2 id H) as [H2|H2]; [|right; lia].
    destruct (A2 id H2) as [H1|H1]; [left; assumption|right; lia].
  - intros i H. destruct (B3 i H) as [H2|H2]; [|right; lia].
    destruct (A3 i H2) as [H1|H1]; [left; assumption|right; lia].
Qed.

Lemma evolves_fresh s s' : evolves s s' -> handles_fresh s -> handles_fresh s'.
Proof.
  intros (A1 & A2 & A3) (F1 & F2). split.
  - intros id H. destruct (A2 id H) as [H1|H1]; [|lia].
    specialize (F1 id H1). lia.
  - intros i H. destruct (A3 i H) as [H1|H1]; [|lia].
    specialize (F2 i H1). lia.
Qed.

Lemma grows_refl s : grows s s.
Proof. split; [apply evolves_refl|intros id _; reflexivity]. Qed.

Lemma grows_trans s1 s2 s3 : grows s1 s2 -> grows s2 s3 -> grows s1 s3.
Proof.
  intros (A & RA) (B & RB). split; [eapply evolves_trans; eassumption|].
  intros id H. destruct A as (A1 & _).
  rewrite RB by lia. apply RA. assumption.
Qed.

(** A step that writes neither the timer table nor a handle. *)
Lemma grows_same s s' :
  timers s' = timers s -> nextTimer s' = nextTimer s ->
  inactivityTimer s' = inactivityTimer s -> grows s s'.
Proof.
  intros Ht Hn Hi. split.
  - split; [rewrite Hn; lia|]. split.
    + intros id H. left. rewrite <- Ht. assumption.
    + intros i H. left. rewrite <- Hi. assumption.
  - intros id _. rewrite Ht. reflexivity.
Qed.

Lemma grows_setTimeout cb delay e s : grows s (snd (setTimeout cb delay e s)).
Proof.
  unfold setTimeout. cbv zeta. cbn [snd].
  unfold grows, evolves, retains. simpl_state. split.
  - split; [lia|]. split.
    + intros id H. destruct (decide (id = nextTimer s)) as [->|Hne].
      * right. lia.
      * left. rewrite lookup_insert_ne in H by congruence. assumption.
    + intros i H. left. assumption.
  - intros id H. apply lookup_insert_ne. lia.
Qed.

Lemma evolves_clearTimeout id s : evolves s (clearTimeout id s).
Proof.
  unfold clearTimeout, evolves. simpl_state. split; [lia|]. split.
  - intros j H. left. destruct H as [x H].
    apply lookup_delete_Some in H as [_ H]. eauto.
  - intros i H. left. assumption.
Qed.

Lemma evolves_clearInactivity s : evolves s (clearInactivity s).
Proof.
  unfold clearInactivity. destruct (inactivityTimer s).
  - apply evolves_clearTimeout.
  - apply evolves_refl.
Qed.

Lemma grows_runFinally k e s : grows s (runFinally k e s).
Proof.
  destruct k; cbn [runFinally]; [apply grows_setTimeout|].
  destruct (isLoading e); cbn [negb]; [apply grows_refl|apply grows_setTimeout].
Qed.

Lemma grows_awaitRefresh k e s : grows s (awaitRefresh k e s).
Proof.
  unfold awaitRefresh. destruct (onRefreshThrows e).
  - eapply grows_trans; [|apply grows_runFinally].
    apply grows_same; reflexivity.
  - apply grows_same; reflexivity.
Qed.

Lemma grows_executeRefresh e s : grows s (executeRefresh e s).
Proof.
  unfold executeRefresh.
  eapply grows_trans; [|apply grows_awaitRefresh]. apply grows_same; reflexivity.
Qed.

Lemma grows_handleStart e y target s : grows s (handleStart e y target s).
Proof.
  unfold handleStart.
  destruct (Qleb (scrollY e) 5 && negb (isRefreshing s));
    [destruct (isScrollable (containerRef e) target)|];
    apply grows_same; reflexivity.
Qed.

Lemma grows_handleMove e y c s : grows s (handleMove e y c s).
Proof.
  unfold handleMove, preventDefaultIf.
  destruct (negb (isDragging s)); [apply grows_refl|].
  destruct (isRefreshing s); [apply grows_refl|].
  destruct (Qltb 0 (y - startY s) && Qleb (scrollY e) 5).
  - destruct c; apply grows_same; reflexivity.
  - destruct (Qltb (y - startY s) 0); apply grows_same; reflexivity.
Qed.

Lemma grows_handleEnd e s : grows s (handleEnd e s).
Proof.
  unfold handleEnd. cbv zeta.
  destruct (negb (isPulling (set_isDragging false s)));
    [apply grows_same; reflexivity|].
  destruct (Qleb (threshold e) (pullDistance (set_isDragging false s)));
    [|apply grows_same; reflexivity].
  eapply grows_trans; [|apply grows_awaitRefresh]. apply grows_same; reflexivity.
Qed.

Lemma grows_watchIsLoading e v s : grows s (watchIsLoading e v s).
Proof.
  unfold watchIsLoading. cbv zeta. destruct v; cbn [negb].
  - apply grows_same; reflexivity.
  - eapply grows_trans; [|apply grows_setTimeout]. apply grows_same; reflexivity.
Qed.

Lemma grows_runCallback cb e s : grows s (runCallback cb e s).
Proof.
  destruct cb; cbn [runCallback]; try (apply grows_same; reflexivity).
  destruct (Qleb (threshold e) (pullDistance s)).
  - eapply grows_trans; [apply grows_executeRefresh|]. apply grows_same; reflexivity.
  - apply grows_same; reflexivity.
Qed.

Lemma evolves_resetInactivityTimer e s : evolves s (resetInactivityTimer e s).
Proof.
  destruct (resetInactivityTimer_frame e s)
    as (_ & _ & _ & _ & _ & _ & _ & _ & _ & Fi & Fn & Ft).
  split; [rewrite Fn; lia|]. split.
  - intros id H. rewrite Ft in H.
    destruct (decide (id = nextTimer s)) as [->|Hne]; [right; rewrite Fn; lia|].
    left. rewrite lookup_insert_ne in H by congruence.
    destruct (inactivityTimer s); [|assumption].
    destruct H as [x H]. apply lookup_delete_Some in H as [_ H]. eauto.
  - intros i H. rewrite Fi in H. injection H as <-. right. rewrite Fn. lia.
Qed.

Lemma evolves_wheelBody_rest e d c s :
  evolves (resetInactivityTimer e s) (wheelBody e d c s).
Proof.
  unfold wheelBody. cbv zeta.
  set (s4 := resetInactivityTimer e s).
  destruct (Qltb d 0).
  - destruct (now e - lastWheelTime s4 <? 16)%Z;
      [apply grows_same; reflexivity|].
    unfold preventDefaultIf.
    destruct (Qleb (threshold e) _ && Qltb 50 (- d)).
    + eapply evolves_trans; [|apply grows_executeRefresh].
      eapply evolves_trans; [|apply evolves_clearInactivity].
      destruct (Qltb 0 _ && c); apply grows_same; reflexivity.
    + destruct (Qltb 0 _ && c); apply grows_same; reflexivity.
  - destruct (Qltb 0 (pullDistance s4)); [|apply evolves_refl].
    unfold preventDefaultIf.
    destruct (Qeq_bool _ 0);
      match goal with |- context [if ?b then _ else _] => destruct b end;
      apply grows_same; reflexivity.
Qed.

Lemma evolves_wheelBody e d c s : evolves s (wheelBody e d c s).
Proof.
  eapply evolves_trans;
    [apply evolves_resetInactivityTimer|apply evolves_wheelBody_rest].
Qed.

Lemma evolves_handleWheel e d target c s : evolves s (handleWheel e d target c s).
Proof.
  unfold handleWheel.
  destruct (isRefreshing s); [apply evolves_refl|].
  destruct (Qltb 0 (scrollY e)); [apply grows_same; reflexivity|].
  destruct (isScrollable (containerRef e) target); [apply evolves_refl|].
  apply evolves_wheelBody.
Qed.

(** Every turn keeps the handles in order. *)
Lemma evolves_dispatch e ev s c :
  dispatch e ev s = Some c -> evolves s (after s c).
Proof.
  destruct ev; cbn [dispatch]; intros H.
  - injection H as <-. unfold handleTouchStart.
    destruct touches; [apply evolves_refl|apply grows_handleStart].
  - injection H as <-. unfold handleTouchMove.
    destruct touches; [apply evolves_refl|apply grows_handleMove].
  - injection H as <-. apply grows_handleEnd.
  - injection H as <-. apply grows_handleStart.
  - injection H as <-. unfold handleMouseMove. cbn [after].
    destruct (isDragging s); [apply grows_handleMove|apply evolves_refl].
  - injection H as <-. apply grows_handleEnd.
  - injection H as <-. apply grows_handleEnd.
  - injection H as <-. apply evolves_handleWheel.
  - destruct (timers s !! id) as [[due cb]|]; [|discriminate].
    destruct (due <=? now e)%Z; [|discriminate]. injection H as <-.
    eapply evolves_trans; [apply evolves_clearTimeout|apply grows_runCallback].
  - destruct (pending s !! i); [|discriminate]. injection H as <-.
    eapply evolves_trans; [|apply grows_runFinally]. apply grows_same; reflexivity.
  - injection H as <-. apply grows_watchIsLoading.
Qed.

Lemma handles_fresh_initial : handles_fresh initial.
Proof.
  split; intros id H; [|discriminate H].
  cbn in H. rewrite lookup_empty in H. destruct H; discriminate.
Qed.

Lemma handles_fresh_run tr :
  forall s s', handles_fresh s -> run tr s = Some s' -> handles_fresh s'.
Proof.
  induction tr as [|[e ev] tr IH]; intros s s' Hf Hrun.
  - injection Hrun as <-. assumption.
  - cbn [run] in Hrun. destruct (dispatch e ev s) as [c|] eqn:Hd; [|discriminate].
    apply (IH (after s c) s'); [|assumption].
    eapply evolves_fresh; [eapply evolves_dispatch; eassumption|assumption].
Qed.

(** A turn that is neither a wheel event nor the run of the timer [id]
    leaves that timer pending. *)
Lemma leavesTimer_dispatch e ev s c id :
  leavesTimer id ev = true -> (id < nextTimer s)%positive ->
  dispatch e ev s = Some c -> timers (after s c) !! id = timers s !! id.
Proof.
  intros Hl Hid.
  destruct ev; cbn [dispatch]; intros H; try discriminate Hl.
  - injection H as <-. unfold handleTouchStart.
    destruct touches; [reflexivity|]. apply grows_handleStart; assumption.
  - injection H as <-. unfold handleTouchMove.
    destruct touches; [reflexivity|]. apply grows_handleMove; assumption.
  - injection H as <-. apply grows_handleEnd; assumption.
  - injection H as <-. apply grows_handleStart; assumption.
  - injection H as <-. unfold handleMouseMove. cbn [after].
    destruct (isDragging s); [apply grows_handleMove; assumption|reflexivity].
  - injection H as <-. apply grows_handleEnd; assumption.
  - injection H as <-. apply grows_handleEnd; assumption.
  - destruct (timers s !! id0) as [[due cb]|] eqn:E; [|discriminate].
    destruct (due <=? now e)%Z; [|discriminate]. injection H as <-.
    cbn [after]. cbn [leavesTimer] in Hl. apply negb_true_iff in Hl.
    apply Pos.eqb_neq in Hl.
    destruct (grows_runCallback cb e (clearTimeout id0 s)) as (_ & R).
    rewrite R by exact Hid.
    unfold clearTimeout. simpl_state. apply lookup_delete_ne. assumption.
  - destruct (pending s !! i); [|discriminate]. injection H as <-. cbn [after].
    destruct (grows_runFinally c0 e (set_pending (delete i (pending s)) s))
      as (_ & R).
    apply R. exact Hid.
  - injection H as <-. apply grows_watchIsLoading; assumption.
Qed.

Lemma leavesTimer_run id tr :
  forall s s',
    forallb (fun p => leavesTimer id (snd p)) tr = true ->
    (id < nextTimer s)%positive ->
    run tr s = Some s' -> timers s' !! id = timers s !! id.
Proof.
  induction tr as [|[e ev] tr IH]; intros s s' Hl Hid Hrun.
  - injection Hrun as <-. reflexivity.
  - cbn [forallb snd] in Hl. apply andb_true_iff in Hl as [Hl1 Hl].
    cbn [run] in Hrun. destruct (dispatch e ev s) as [c|] eqn:Hd; [|discriminate].
    rewrite (IH (after s c) s' Hl); [| |assumption].
    + eapply leavesTimer_dispatch; eassumption.
    + destruct (evolves_dispatch e ev s c Hd) as (Hn & _). lia.
Qed.

(** ** The inactivity timer, set and run *)

(** A processed wheel event cancels the inactivity timer that was pending. *)
Lemma wheelBody_cancels e d c s old :
  handles_fresh s -> inactivityTimer s = Some old ->
  timers (wheelBody e d c s) !! old = None.
Proof.
  intros (F1 & F2) Hold. specialize (F2 old Hold).
  destruct (resetInactivityTimer_frame e s)
    as (_ & _ & _ & _ & _ & _ & _ & _ & _ & _ & Fn & Ft).
  rewrite Hold in Ft.
  assert (Hr : timers (resetInactivityTimer e s) !! old = None).
  { rewrite Ft, lookup_insert_ne by lia. apply lookup_delete_eq. }
  destruct (evolves_wheelBody_rest e d c s) as (_ & E2 & _).
  destruct (timers (wheelBody e d c s) !! old) as [x|] eqn:E; [|reflexivity].
  destruct (E2 old) as [H|H].
  - rewrite E. eauto.
  - rewrite Hr in H. destruct H; discriminate.
  - rewrite Fn in H. lia.
Qed.

(** The inactivity callback, when the runtime runs it. *)
Lemma fire_CbInactivity e s id due :
  timers s !! id = Some (due, CbInactivity) ->
  ((now e < due)%Z -> dispatch e (TimerFire id) s = None)
  /\ ((due <= now e)%Z ->
      exists s',
        dispatch e (TimerFire id) s = Some (Normal s')
        /\ accumulatedDelta s' = 0
        /\ (threshold e <= pullDistance s ->
            s' = set_accumulatedDelta 0 (executeRefresh e (clearTimeout id s))
            /\ refreshCalls s' = S (refreshCalls s)
            /\ isRefreshing s' = true /\ pullDistance s' = threshold e
            /\ isPulling s' = false)
        /\ (pullDistance s < threshold e ->
            refreshCalls s' = refreshCalls s
            /\ pullDistance s' = 0 /\ isPulling s' = false
            /\ isRefreshing s' = isRefreshing s
            /\ isDragging s' = isDragging s
            /\ (isDragging s = false -> isRefreshing s = false ->
                gestureState s' = Idle))).
Proof.
  intros H. cbn [dispatch]. rewrite H. split; intros Ht.
  - apply Z.leb_gt in Ht. rewrite Ht. reflexivity.
  - apply Z.leb_le in Ht. rewrite Ht. eexists. split; [reflexivity|].
    cbn [runCallback]. simpl_state.
    replace (pullDistance (clearTimeout id s)) with (pullDistance s)
      by reflexivity.
    split; [reflexivity|]. split.
    + intros Hge. apply Qleb_le in Hge. rewrite Hge.
      destruct (executeRefresh_frame e (clearTimeout id s))
        as (X1 & X2 & X3 & _ & X5 & _).
      simpl_state. rewrite X1, X2, X3, X5. repeat split.
    + intros Hlt. apply Qleb_gt in Hlt. rewrite Hlt.
      unfold gestureState, clearTimeout. simpl_state.
      repeat split. intros -> ->. reflexivity.
Qed.

(** C7, as stated, fails.  In [wheelWhilePressed] the inactivity timer runs
    under the threshold while the mouse button is down: it zeroes the
    distance and clears Pulling but leaves the press, so the state is
    Dragging, not Idle.  In [wheelOverList] a wheel event over a scrolled
    list, 10ms before the timer is due, is turned away by the probe before
    the timer is touched: the timer is neither cancelled nor restarted and
    runs 10ms after that event, starting the refresh. *)
Lemma inactivity_timer_not_always_idle_nor_restarted :
  chronological 0 wheelWhilePressed = true
  /\ refreshStatus <$> run (take 2 wheelWhilePressed) initial
     = Some (Pulling, 100 * (3#10), 0%nat, 0%nat)
  /\ refreshStatus <$> run wheelWhilePressed initial
     = Some (Dragging, 0, 0%nat, 0%nat)
  /\ chronological 0 wheelOverList = true
  /\ (map_to_list ∘ timers) <$> run (take 4 wheelOverList) initial
     = Some [(4%positive, (210%Z, CbInactivity))]
  /\ (map_to_list ∘ timers) <$> run (take 5 wheelOverList) initial
     = Some [(4%positive, (210%Z, CbInactivity))]
  /\ (fun s => (gestureState s, Qred (pullDistance s), refreshCalls s))
       <$> run (take 5 wheelOverList) initial
     = Some (Pulling, 60, 0%nat)
  /\ refreshStatus <$> run wheelOverList initial
     = Some (Refreshing, 60, 1%nat, 1%nat).
Proof. repeat split; vm_compute; reflexivity. Qed.

(** C7, amended: a wheel event that passes the guards of the handler drops
    the pending inactivity timer and starts one due 50ms later (unless the
    event itself starts the refresh, which leaves no inactivity timer
    behind); the new timer stays pending through every turn that is not a
    wheel event; it cannot run before it is due; and when it runs it calls
    [executeRefresh] if the visible distance has reached the threshold, and
    otherwise zeroes the distance and clears Pulling, writing neither the
    Dragging nor the Refreshing flag: the state is then Idle when no press is
    under way and the component is not Refreshing.  A wheel event turned
    away by a guard (Refreshing, page scrolled, target inside a scrolled
    region) leaves the timer table and the recorded handle as they are. *)
Theorem wheel_inactivity e d target c s :
  isRefreshing s = false -> scrollY e <= 0 ->
  isScrollable (containerRef e) target = false ->
  let s' := handleWheel e d target c s in
  let id := nextTimer s in
  inactivityTimer s' = Some id
  /\ (handles_fresh s ->
      forall old, inactivityTimer s = Some old -> timers s' !! old = None)
  /\ (triggersAtOnce e d s = false ->
      timers s' !! id = Some ((now e + 50)%Z, CbInactivity)
      /\ refreshCalls s' = refreshCalls s)
  /\ (triggersAtOnce e d s = true ->
      timers s' !! id = None
      /\ refreshCalls s' = S (refreshCalls s) /\ isRefreshing s' = true)
  /\ (forall tr s2,
        forallb (fun p => leavesTimer id (snd p)) tr = true ->
        run tr s' = Some s2 -> timers s2 !! id = timers s' !! id)
  /\ (forall e2 s2 id2 due,
        timers s2 !! id2 = Some (due, CbInactivity) ->
        ((now e2 < due)%Z -> dispatch e2 (TimerFire id2) s2 = None)
        /\ ((due <= now e2)%Z ->
            exists s3,
              dispatch e2 (TimerFire id2) s2 = Some (Normal s3)
              /\ accumulatedDelta s3 = 0
              /\ (threshold e2 <= pullDistance s2 ->
                  s3 = set_accumulatedDelta 0
                         (executeRefresh e2 (clearTimeout id2 s2))
                  /\ refreshCalls s3 = S (refreshCalls s2)
                  /\ isRefreshing s3 = true
                  /\ pullDistance s3 = threshold e2
                  /\ isPulling s3 = false)
              /\ (pullDistance s2 < threshold e2 ->
                  refreshCalls s3 = refreshCalls s2
                  /\ pullDistance s3 = 0 /\ isPulling s3 = false
                  /\ isRefreshing s3 = isRefreshing s2
                  /\ isDragging s3 = isDragging s2
                  /\ (isDragging s2 = false -> isRefreshing s2 = false ->
                      gestureState s3 = Idle))))
  /\ (forall e0 d0 target0 c0 s0,
        isRefreshing s0 = true \/ 0 < scrollY e0
        \/ inside_scrolled_region (containerRef e0) target0 ->
        timers (handleWheel e0 d0 target0 c0 s0) = timers s0
        /\ inactivityTimer (handleWheel e0 d0 target0 c0 s0)
           = inactivityTimer s0).
Proof.
  intros Hr Ht Hi.
  assert (Hturned : forall e0 d0 target0 c0 s0,
            isRefreshing s0 = true \/ 0 < scrollY e0
            \/ inside_scrolled_region (containerRef e0) target0 ->
            timers (handleWheel e0 d0 target0 c0 s0) = timers s0
            /\ inactivityTimer (handleWheel e0 d0 target0 c0 s0)
               = inactivityTimer s0).
  { clear. intros e0 d0 target0 c0 s0 H. unfold handleWheel.
    destruct (isRefreshing s0) eqn:E1; [split; reflexivity|].
    destruct (Qltb 0 (scrollY e0)) eqn:E2; [split; reflexivity|].
    destruct (isScrollable (containerRef e0) target0) eqn:E3;
      [split; reflexivity|].
    exfalso. destruct H as [H|[H|H]].
    - discriminate H.
    - apply Qltb_lt in H. congruence.
    - apply isScrollable_spec in H. congruence. }
  cbv zeta. rewrite handleWheel_passes by assumption.
  destruct (wheelBody_timers e d c s) as (W1 & W2).
  destruct (resetInactivityTimer_frame e s)
    as (_ & _ & _ & _ & _ & _ & _ & _ & _ & _ & Fn & Ft).
  split; [exact W1|]. split.
  { intros Hf old Hold. apply wheelBody_cancels; assumption. }
  split.
  { intros Hno. rewrite Hno in W2. destruct W2 as (-> & -> & _).
    split; [|reflexivity]. rewrite Ft. apply lookup_insert_eq. }
  split.
  { intros Hyes. rewrite Hyes in W2. exact W2. }
  split.
  { intros tr s2 Hl Hrun. eapply leavesTimer_run; [exact Hl| |exact Hrun].
    destruct (evolves_wheelBody_rest e d c s) as (Hn & _).
    rewrite Fn in Hn. lia. }
  split; [|exact Hturned].
  intros e2 s2 id2 due Hl. apply fire_CbInactivity. exact Hl.
Qed.

Lemma wheel_inactivity_witness :
  isRefreshing initial = false
  /\ scrollY (atTop 100) <= 0
  /\ timers wheeledTo30 !! 1%positive = Some (150%Z, CbInactivity).
Proof.
  split; [reflexivity|]. split; [discriminate|].
  destruct (wheel_inactivity (atTop 100) (-100) paragraph true initial
              eq_refl ltac:(discriminate) eq_refl)
    as (_ & _ & H & _).
  destruct (H eq_refl) as (H1 & _). exact H1.
Defined.

(** ** While Refreshing *)

(** Start, move and wheel events are ignored while Refreshing. *)
Lemma refreshing_blocks_inputs s :
  isRefreshing s = true ->
  (forall e y target, handleStart e y target s = s)
  /\ (forall e y c, handleMove e y c s = s)
  /\ (forall e y c, handleMouseMove e y c s = s)
  /\ (forall e d target c, handleWheel e d target c s = s).
Proof.
  intros Hr. repeat split; intros.
  - unfold handleStart. rewrite Hr, andb_false_r. reflexivity.
  - unfold handleMove. rewrite Hr. destruct (negb (isDragging s)); reflexivity.
  - unfold handleMouseMove, handleMove. rewrite Hr.
    destruct (isDragging s); reflexivity.
  - unfold handleWheel. rewrite Hr. reflexivity.
Qed.

(** The reset callbacks never call the refresh callback. *)
Lemma reset_callbacks_do_not_refresh cb e s :
  cb <> CbInactivity -> refreshCalls (runCallback cb e s) = refreshCalls s.
Proof. destruct cb; intros H; [reflexivity|reflexivity|congruence]. Qed.

(** C9, the code at the failing input: the inactivity callback does not look
    at the Refreshing flag.  After [wheelThenLeave] up to the pointer leaving
    the container, the component is Refreshing with one call of the refresh
    callback in flight and the inactivity timer of the last wheel event
    still pending; when that timer runs, the distance stands at the
    threshold, so it calls [executeRefresh]: a second call of the refresh
    callback while the first is still pending. *)
Theorem inactivity_timer_refreshes_again :
  chronological 0 wheelThenLeave = true
  /\ refreshView <$> run (take 4 wheelThenLeave) initial = Some (false, 0%nat, 0%nat)
  /\ refreshView <$> run (take 5 wheelThenLeave) initial = Some (true, 1%nat, 1%nat)
  /\ (map_to_list ∘ timers) <$> run (take 5 wheelThenLeave) initial
     = Some [(4%positive, (210%Z, CbInactivity))]
  /\ refreshView <$> run wheelThenLeave initial = Some (true, 2%nat, 2%nat).
Proof. repeat split; vm_compute; reflexivity. Qed.

(** ** The downward wheel branch *)

(** The fields a downward (or flat) wheel event writes, once past the guards. *)
Lemma wheelBody_downward_fields e d c s :
  Qltb d 0 = false ->
  let s' := wheelBody e d c s in
  let decayed := Qmax 0 (pullDistance s - d * (1#2)) in
  pullDistance s' = (if Qltb 0 (pullDistance s) then decayed else pullDistance s)
  /\ isPulling s'
     = (if Qltb 0 (pullDistance s) && Qeq_bool decayed 0 then false
        else isPulling s)
  /\ prevented s'
     = (if Qltb 0 (pullDistance s) && (c && negb (Qeq_bool decayed 0)
                                       && isPulling s)
        then S (prevented s) else prevented s)
  /\ accumulatedDelta s' = accumulatedDelta s
  /\ lastWheelTime s' = lastWheelTime s
  /\ isRefreshing s' = isRefreshing s
  /\ isDragging s' = isDragging s
  /\ startY s' = startY s
  /\ refreshCalls s' = refreshCalls s
  /\ pending s' = pending s.
Proof.
  intros Hd. unfold wheelBody, resetInactivityTimer, clearInactivity.
  destruct s as [pd r p y0 dr lw acc lwe [old|] tm nx pe rc pv];
    simpl in *; rewrite Hd;
    destruct (Qltb 0 pd); simpl; try (repeat split; reflexivity);
    destruct (Qeq_bool (Qmax 0 (pd - d * (1#2))) 0); simpl;
    destruct c; simpl; try (repeat split; reflexivity);
    destruct p; repeat split; reflexivity.
Qed.

(** ** Distances are never negative *)

Lemma handleStart_fields e y target s :
  let s' := handleStart e y target s in
  pullDistance s' = pullDistance s
  /\ accumulatedDelta s' = accumulatedDelta s
  /\ isPulling s' = isPulling s
  /\ isRefreshing s' = isRefreshing s
  /\ refreshCalls s' = refreshCalls s
  /\ timers s' = timers s
  /\ inactivityTimer s' = inactivityTimer s
  /\ prevented s' = prevented s.
Proof.
  unfold handleStart.
  destruct (Qleb (scrollY e) 5 && negb (isRefreshing s));
    [destruct (isScrollable (containerRef e) target)|]; repeat split.
Qed.

Lemma handleMove_fields e y c s :
  let s' := handleMove e y c s in
  accumulatedDelta s' = accumulatedDelta s
  /\ isRefreshing s' = isRefreshing s
  /\ refreshCalls s' = refreshCalls s
  /\ timers s' = timers s
  /\ inactivityTimer s' = inactivityTimer s
  /\ startY s' = startY s.
Proof.
  unfold handleMove, preventDefaultIf.
  destruct (negb (isDragging s)); [repeat split|].
  destruct (isRefreshing s) eqn:Hr; [repeat split; assumption|].
  destruct (Qltb 0 (y - startY s) && Qleb (scrollY e) 5).
  - destruct c; repeat split; assumption.
  - destruct (Qltb (y - startY s) 0); repeat split; assumption.
Qed.

Lemma nonneg_handleMove e y c s : nonneg s -> nonneg (handleMove e y c s).
Proof.
  intros (Hp & Ha).
  destruct (handleMove_fields e y c s) as (Fa & _).
  split; [|rewrite Fa; assumption].
  unfold handleMove, preventDefaultIf.
  destruct (negb (isDragging s)); [assumption|].
  destruct (isRefreshing s); [assumption|].
  destruct (Qltb 0 (y - startY s) && Qleb (scrollY e) 5) eqn:E.
  - apply andb_true_iff in E as [E _]. apply Qltb_lt in E.
    destruct c; simpl_state; lra.
  - destruct (Qltb (y - startY s) 0); simpl_state; lra.
Qed.

Lemma nonneg_handleEnd e s : 0 <= threshold e -> nonneg s -> nonneg (handleEnd e s).
Proof.
  intros HT (Hp & Ha). unfold handleEnd. cbv zeta.
  destruct (negb (isPulling (set_isDragging false s))); [split; assumption|].
  destruct (Qleb (threshold e) (pullDistance (set_isDragging false s))).
  - match goal with |- nonneg (awaitRefresh ?k e ?x) =>
      destruct (awaitRefresh_frame k e x) as (F1 & _ & _ & _ & _ & F6)
    end.
    split; [rewrite F1|rewrite F6]; simpl_state; assumption.
  - split; simpl_state; [lra|assumption].
Qed.

Lemma nonneg_executeRefresh e s :
  0 <= threshold e -> nonneg s -> nonneg (executeRefresh e s).
Proof.
  intros HT (Hp & Ha).
  destruct (executeRefresh_frame e s) as (F1 & _ & _ & _ & _ & F6).
  split; [rewrite F1|rewrite F6]; assumption.
Qed.

Lemma nonneg_wheelBody e d c s :
  0 <= threshold e -> nonneg s -> nonneg (wheelBody e d c s).
Proof.
  intros HT (Hp & Ha).
  destruct (resetInactivityTimer_frame e s)
    as (Fpd & _ & _ & _ & _ & Fa & _).
  destruct (Qltb d 0) eqn:Hd.
  - apply Qltb_lt in Hd.
    destruct (Z.lt_ge_cases (now e - lastWheelTime s) 16) as [Hw|Hw].
    + rewrite wheelBody_throttled by assumption. split; simpl_state.
      * rewrite Fpd. assumption.
      * lra.
    + rewrite wheelBody_flush by assumption. cbv zeta.
      assert (Hf : 0 <= flushed e d s).
      { unfold flushed. apply Q.min_glb; lra. }
      destruct (flush_state_fields e c s (flushed e d s))
        as (G1 & _ & _ & _ & _ & G6 & _).
      destruct (Qleb (threshold e) (flushed e d s) && Qltb 50 (- d)).
      * apply nonneg_executeRefresh; [assumption|].
        match goal with |- nonneg (clearInactivity ?x) =>
          destruct (clearInactivity_frame x)
            as (C1 & _ & _ & _ & _ & C6 & _)
        end.
        split; [rewrite C1, G1; assumption|rewrite C6, G6; lra].
      * split; [rewrite G1; assumption|rewrite G6; lra].
  - destruct (wheelBody_downward_fields e d c s Hd) as (W1 & _ & _ & W4 & _).
    split; [rewrite W1|rewrite W4; assumption].
    destruct (Qltb 0 (pullDistance s)); [apply Q.le_max_l|assumption].
Qed.

Lemma nonneg_handleWheel e d target c s :
  0 <= threshold e -> nonneg s -> nonneg (handleWheel e d target c s).
Proof.
  intros HT Hn. unfold handleWheel.
  destruct (isRefreshing s); [assumption|].
  destruct (Qltb 0 (scrollY e)).
  - destruct Hn as (_ & Ha). split; simpl_state; [lra|assumption].
  - destruct (isScrollable (containerRef e) target); [assumption|].
    apply nonneg_wheelBody; assumption.
Qed.

Lemma nonneg_runCallback cb e s :
  0 <= threshold e -> nonneg s -> nonneg (runCallback cb e s).
Proof.
  intros HT (Hp & Ha). destruct cb; cbn [runCallback].
  - split; simpl_state; [lra|assumption].
  - split; simpl_state; [lra|assumption].
  - split; simpl_state; [|lra].
    destruct (Qleb (threshold e) (pullDistance s)).
    + destruct (executeRefresh_frame e s) as (F1 & _). rewrite F1. assumption.
    + simpl_state. lra.
Qed.

Lemma nonneg_dispatch e ev s c :
  0 <= threshold e -> nonneg s -> dispatch e ev s = Some c ->
  nonneg (after s c).
Proof.
  intros HT Hn. destruct ev; cbn [dispatch]; intros H.
  - injection H as <-. unfold handleTouchStart.
    destruct touches; [assumption|]. cbn [after].
    destruct (handleStart_fields e (clientY t) target s) as (F1 & F2 & _).
    destruct Hn. split; [rewrite F1|rewrite F2]; assumption.
  - injection H as <-. unfold handleTouchMove.
    destruct touches; [assumption|]. apply nonneg_handleMove; assumption.
  - injection H as <-. apply nonneg_handleEnd; assumption.
  - injection H as <-. cbn [after]. unfold handleMouseDown.
    destruct (handleStart_fields e y target s) as (F1 & F2 & _).
    destruct Hn. split; [rewrite F1|rewrite F2]; assumption.
  - injection H as <-. unfold handleMouseMove. cbn [after].
    destruct (isDragging s); [apply nonneg_handleMove|]; assumption.
  - injection H as <-. apply nonneg_handleEnd; assumption.
  - injection H as <-. apply nonneg_handleEnd; assumption.
  - injection H as <-. apply nonneg_handleWheel; assumption.
  - destruct (timers s !! id) as [[due cb]|]; [|discriminate].
    destruct (due <=? now e)%Z; [|discriminate]. injection H as <-.
    apply nonneg_runCallback; assumption.
  - destruct (pending s !! i) as [k|]; [|discriminate]. injection H as <-.
    cbn [after].
    destruct (runFinally_frame k e (set_pending (delete i (pending s)) s))
      as (F1 & _ & _ & _ & _ & _ & F7).
    destruct Hn. split; [rewrite F1|rewrite F7]; assumption.
  - injection H as <-. cbn [after]. unfold watchIsLoading. cbv zeta.
    destruct newValue; cbn [negb]; exact Hn.
Qed.

(** X1: along every run in which the threshold is never negative, the pull
    distance and the wheel accumulator stay at or above 0. *)
Theorem distances_never_negative tr :
  forall s s',
    nonneg s -> Forall (fun p => 0 <= threshold (fst p)) tr ->
    run tr s = Some s' ->
    0 <= pullDistance s' /\ 0 <= accumulatedDelta s'.
Proof.
  induction tr as [|[e ev] tr IH]; intros s s' Hn Hall Hrun.
  - injection Hrun as <-. exact Hn.
  - inversion Hall as [|? ? HT Htl]; subst. cbn [fst] in HT.
    cbn [run] in Hrun. destruct (dispatch e ev s) as [c|] eqn:Hd; [|discriminate].
    apply (IH (after s c) s'); [|assumption|assumption].
    eapply nonneg_dispatch; eassumption.
Qed.

Lemma distances_never_negative_witness :
  exists s',
    run wheelThenLeave initial = Some s'
    /\ 0 <= pullDistance s' /\ 0 <= accumulatedDelta s'.
Proof.
  eexists. split; [vm_compute; reflexivity|].
  apply (distances_never_negative wheelThenLeave initial).
  - split; apply Qle_refl.
  - repeat constructor; discriminate.
  - vm_compute; reflexivity.
Defined.

(** ** The wheel path stays within twice the threshold *)

Lemma handleEnd_distance e s :
  pullDistance (handleEnd e s) = pullDistance s
  \/ pullDistance (handleEnd e s) = threshold e
  \/ pullDistance (handleEnd e s) = 0.
Proof.
  unfold handleEnd. cbv zeta.
  destruct (negb (isPulling (set_isDragging false s))); [left; reflexivity|].
  destruct (Qleb (threshold e) (pullDistance (set_isDragging false s))).
  - right. left.
    match goal with |- pullDistance (awaitRefresh ?k e ?x) = _ =>
      destruct (awaitRefresh_frame k e x) as (F1 & _)
    end.
    rewrite F1. reflexivity.
  - right. right. reflexivity.
Qed.

Lemma clamp_wheelBody e d c s :
  0 <= threshold e -> pullDistance s <= threshold e * 2 ->
  pullDistance (wheelBody e d c s) <= threshold e * 2.
Proof.
  intros HT Hp.
  destruct (resetInactivityTimer_frame e s) as (Fpd & _).
  destruct (Qltb d 0) eqn:Hd.
  - apply Qltb_lt in Hd.
    destruct (Z.lt_ge_cases (now e - lastWheelTime s) 16) as [Hw|Hw].
    + rewrite wheelBody_throttled by assumption. simpl_state.
      rewrite Fpd. assumption.
    + rewrite wheelBody_flush by assumption. cbv zeta.
      destruct (flush_state_fields e c s (flushed e d s)) as (G1 & _).
      destruct (Qleb (threshold e) (flushed e d s) && Qltb 50 (- d)).
      * match goal with |- pullDistance (executeRefresh e ?x) <= _ =>
          destruct (executeRefresh_frame e x) as (X1 & _)
        end.
        rewrite X1. lra.
      * rewrite G1. unfold flushed. apply Q.le_min_r.
  - destruct (wheelBody_downward_fields e d c s Hd) as (W1 & _).
    rewrite W1. apply Qltb_ge in Hd.
    destruct (Qltb 0 (pullDistance s)); [|assumption].
    apply Q.max_lub; lra.
Qed.

Lemma clamp_dispatch e ev s c :
  0 <= threshold e -> isMove ev = false ->
  pullDistance s <= threshold e * 2 -> dispatch e ev s = Some c ->
  pullDistance (after s c) <= threshold e * 2.
Proof.
  intros HT Hm Hp.
  assert (Hend : pullDistance (handleEnd e s) <= threshold e * 2).
  { destruct (handleEnd_distance e s) as [-> | [-> | ->]]; lra. }
  destruct ev; cbn [dispatch]; intros H; try discriminate Hm.
  - injection H as <-. unfold handleTouchStart.
    destruct touches; [assumption|]. cbn [after].
    destruct (handleStart_fields e (clientY t) target s) as (F1 & _).
    rewrite F1. assumption.
  - injection H as <-. exact Hend.
  - injection H as <-. cbn [after]. unfold handleMouseDown.
    destruct (handleStart_fields e y target s) as (F1 & _).
    rewrite F1. assumption.
  - injection H as <-. exact Hend.
  - injection H as <-. exact Hend.
  - injection H as <-. cbn [after]. unfold handleWheel.
    destruct (isRefreshing s); [assumption|].
    destruct (Qltb 0 (scrollY e)); [simpl_state; lra|].
    destruct (isScrollable (containerRef e) target); [assumption|].
    apply clamp_wheelBody; assumption.
  - destruct (timers s !! id) as [[due cb]|]; [|discriminate].
    destruct (due <=? now e)%Z; [|discriminate]. injection H as <-.
    cbn [after]. destruct cb; cbn [runCallback]; simpl_state; try lra.
    replace (pullDistance (clearTimeout id s)) with (pullDistance s)
      by reflexivity.
    destruct (Qleb (threshold e) (pullDistance s)).
    + match goal with |- pullDistance (executeRefresh e ?x) <= _ =>
        destruct (executeRefresh_frame e x) as (X1 & _)
      end.
      rewrite X1. lra.
    + simpl_state. lra.
  - destruct (pending s !! i) as [k|]; [|discriminate]. injection H as <-.
    cbn [after].
    destruct (runFinally_frame k e (set_pending (delete i (pending s)) s))
      as (F1 & _).
    rewrite F1. assumption.
  - injection H as <-. cbn [after]. unfold watchIsLoading. cbv zeta.
    destruct newValue; cbn [negb]; exact Hp.
Qed.

(** X2: with a fixed threshold [T >= 0], a run without touch or mouse move
    events that starts at or under [2 * T] never shows a distance over
    [2 * T]: wheel events clamp, releases and timers write the threshold
    or 0. *)
Theorem wheel_path_within_twice_threshold T tr :
  forall s s',
    0 <= T -> pullDistance s <= T * 2 ->
    Forall (fun p => threshold (fst p) = T /\ isMove (snd p) = false) tr ->
    run tr s = Some s' ->
    pullDistance s' <= T * 2.
Proof.
  induction tr as [|[e ev] tr IH]; intros s s' HT Hp Hall Hrun.
  - injection Hrun as <-. exact Hp.
  - inversion Hall as [|? ? [He Hm] Htl]; subst. cbn [fst snd] in *.
    cbn [run] in Hrun. destruct (dispatch e ev s) as [c|] eqn:Hd; [|discriminate].
    apply (IH (after s c) s'); try assumption.
    apply (clamp_dispatch e ev s c); assumption.
Qed.

Lemma wheel_path_within_twice_threshold_witness :
  exists s',
    run wheelThenLeave initial = Some s' /\ pullDistance s' <= 60 * 2.
Proof.
  eexists. split; [vm_compute; reflexivity|].
  apply (wheel_path_within_twice_threshold 60 wheelThenLeave initial).
  - discriminate.
  - discriminate.
  - repeat constructor.
  - vm_compute; reflexivity.
Defined.

(** ** One inactivity timer at a time *)

Lemma nni_refl s : no_new_inactivity s s.
Proof. split; auto. Qed.

Lemma nni_trans s1 s2 s3 :
  no_new_inactivity s1 s2 -> no_new_inactivity s2 s3 -> no_new_inactivity s1 s3.
Proof.
  intros (A1 & A2) (B1 & B2). split; [congruence|].
  intros id due H. apply A2, B2, H.
Qed.

Lemma nni_same s s' :
  timers s' = timers s -> inactivityTimer s' = inactivityTimer s ->
  no_new_inactivity s s'.
Proof. intros Ht Hi. split; [assumption|]. rewrite Ht. auto. Qed.

Lemma nni_setTimeout cb delay e s :
  cb <> CbInactivity -> no_new_inactivity s (snd (setTimeout cb delay e s)).
Proof.
  intros Hcb. unfold setTimeout, no_new_inactivity. cbv zeta. cbn [snd].
  simpl_state. split; [reflexivity|]. intros id due H.
  destruct (decide (nextTimer s = id)) as [<-|Hne].
  - rewrite lookup_insert_eq in H. congruence.
  - rewrite lookup_insert_ne in H by assumption. assumption.
Qed.

Lemma nni_clearTimeout id s : no_new_inactivity s (clearTimeout id s).
Proof.
  unfold clearTimeout, no_new_inactivity. simpl_state.
  split; [reflexivity|]. intros j due H.
  apply lookup_delete_Some in H as [_ H]. assumption.
Qed.

Lemma nni_clearInactivity s : no_new_inactivity s (clearInactivity s).
Proof.
  unfold clearInactivity. destruct (inactivityTimer s) eqn:E.
  - apply nni_clearTimeout.
  - apply nni_refl.
Qed.

Lemma nni_runFinally k e s : no_new_inactivity s (runFinally k e s).
Proof.
  destruct k; cbn [runFinally]; [apply nni_setTimeout; discriminate|].
  destruct (isLoading e); cbn [negb];
    [apply nni_refl|apply nni_setTimeout; discriminate].
Qed.

Lemma nni_awaitRefresh k e s : no_new_inactivity s (awaitRefresh k e s).
Proof.
  unfold awaitRefresh. destruct (onRefreshThrows e).
  - eapply nni_trans; [|apply nni_runFinally]. apply nni_same; reflexivity.
  - apply nni_same; reflexivity.
Qed.

Lemma nni_executeRefresh e s : no_new_inactivity s (executeRefresh e s).
Proof.
  unfold executeRefresh.
  eapply nni_trans; [|apply nni_awaitRefresh]. apply nni_same; reflexivity.
Qed.

Lemma nni_handleStart e y target s : no_new_inactivity s (handleStart e y target s).
Proof.
  destruct (handleStart_fields e y target s) as (_ & _ & _ & _ & _ & Ft & Fi & _).
  apply nni_same; assumption.
Qed.

Lemma nni_handleMove e y c s : no_new_inactivity s (handleMove e y c s).
Proof.
  destruct (handleMove_fields e y c s) as (_ & _ & _ & Ft & Fi & _).
  apply nni_same; assumption.
Qed.

Lemma nni_handleEnd e s : no_new_inactivity s (handleEnd e s).
Proof.
  unfold handleEnd. cbv zeta.
  destruct (negb (isPulling (set_isDragging false s)));
    [apply nni_same; reflexivity|].
  destruct (Qleb (threshold e) (pullDistance (set_isDragging false s)));
    [|apply nni_same; reflexivity].
  eapply nni_trans; [|apply nni_awaitRefresh]. apply nni_same; reflexivity.
Qed.

Lemma nni_watchIsLoading e v s : no_new_inactivity s (watchIsLoading e v s).
Proof.
  unfold watchIsLoading. cbv zeta. destruct v; cbn [negb].
  - apply nni_same; reflexivity.
  - eapply nni_trans; [|apply nni_setTimeout; discriminate].
    apply nni_same; reflexivity.
Qed.

Lemma nni_runCallback cb e s : no_new_inactivity s (runCallback cb e s).
Proof.
  destruct cb; cbn [runCallback]; try (apply nni_same; reflexivity).
  destruct (Qleb (threshold e) (pullDistance s)).
  - eapply nni_trans; [apply nni_executeRefresh|]. apply nni_same; reflexivity.
  - apply nni_same; reflexivity.
Qed.

Lemma nni_wheelBody_rest e d c s :
  no_new_inactivity (resetInactivityTimer e s) (wheelBody e d c s).
Proof.
  unfold wheelBody. cbv zeta.
  set (s4 := resetInactivityTimer e s).
  destruct (Qltb d 0).
  - destruct (now e - lastWheelTime s4 <? 16)%Z;
      [apply nni_same; reflexivity|].
    unfold preventDefaultIf.
    destruct (Qleb (threshold e) _ && Qltb 50 (- d)).
    + eapply nni_trans; [|apply nni_executeRefresh].
      eapply nni_trans; [|apply nni_clearInactivity].
      destruct (Qltb 0 _ && c); apply nni_same; reflexivity.
    + destruct (Qltb 0 _ && c); apply nni_same; reflexivity.
  - destruct (Qltb 0 (pullDistance s4)); [|apply nni_refl].
    unfold preventDefaultIf.
    destruct (Qeq_bool _ 0);
      match goal with |- context [if ?b then _ else _] => destruct b end;
      apply nni_same; reflexivity.
Qed.

Lemma recorded_nni s s' :
  no_new_inactivity s s' -> inactivity_recorded s -> inactivity_recorded s'.
Proof.
  intros (Hi & Ht) Hr id due H. rewrite Hi. eapply Hr, Ht, H.
Qed.

Lemma no_inactivity_nni s s' :
  no_new_inactivity s s' -> no_inactivity s -> no_inactivity s'.
Proof.
  intros (_ & Ht) Hn id due H. apply (Hn id due), Ht, H.
Qed.

(** Restarting the timer keeps a single recorded inactivity callback. *)
Lemma recorded_resetInactivityTimer e s :
  inactivity_recorded s -> inactivity_recorded (resetInactivityTimer e s).
Proof.
  intros Hr id due H.
  destruct (resetInactivityTimer_frame e s)
    as (_ & _ & _ & _ & _ & _ & _ & _ & _ & Fi & _ & Ft).
  rewrite Fi. rewrite Ft in H.
  destruct (decide (nextTimer s = id)) as [->|Hne]; [reflexivity|].
  rewrite lookup_insert_ne in H by assumption. exfalso.
  destruct (inactivityTimer s) as [old|] eqn:E.
  - apply lookup_delete_Some in H as [Hne' H].
    specialize (Hr id due H). congruence.
  - specialize (Hr id due H). congruence.
Qed.

Lemma recorded_handleWheel e d target c s :
  inactivity_recorded s -> inactivity_recorded (handleWheel e d target c s).
Proof.
  intros Hr. unfold handleWheel.
  destruct (isRefreshing s); [assumption|].
  destruct (Qltb 0 (scrollY e)).
  - eapply recorded_nni; [apply nni_same; reflexivity|assumption].
  - destruct (isScrollable (containerRef e) target); [assumption|].
    eapply recorded_nni; [apply nni_wheelBody_rest|].
    apply recorded_resetInactivityTimer. assumption.
Qed.

(** Turns other than wheel events start no inactivity callback. *)
Lemma nni_dispatch e ev s c :
  (forall d target k, ev <> Wheel d target k) ->
  dispatch e ev s = Some c -> no_new_inactivity s (after s c).
Proof.
  intros Hw. destruct ev; cbn [dispatch]; intros H.
  - injection H as <-. unfold handleTouchStart.
    destruct touches; [apply nni_refl|apply nni_handleStart].
  - injection H as <-. unfold handleTouchMove.
    destruct touches; [apply nni_refl|apply nni_handleMove].
  - injection H as <-. apply nni_handleEnd.
  - injection H as <-. apply nni_handleStart.
  - injection H as <-. unfold handleMouseMove. cbn [after].
    destruct (isDragging s); [apply nni_handleMove|apply nni_refl].
  - injection H as <-. apply nni_handleEnd.
  - injection H as <-. apply nni_handleEnd.
  - exfalso. eapply Hw. reflexivity.
  - destruct (timers s !! id) as [[due cb]|]; [|discriminate].
    destruct (due <=? now e)%Z; [|discriminate]. injection H as <-.
    eapply nni_trans; [apply nni_clearTimeout|apply nni_runCallback].
  - destruct (pending s !! i); [|discriminate]. injection H as <-.
    eapply nni_trans; [|apply nni_runFinally]. apply nni_same; reflexivity.
  - injection H as <-. apply nni_watchIsLoading.
Qed.

Lemma recorded_dispatch e ev s c :
  inactivity_recorded s -> dispatch e ev s = Some c ->
  inactivity_recorded (after s c).
Proof.
  intros Hr H.
  destruct ev;
    try (eapply recorded_nni; [eapply nni_dispatch; [|exact H]; congruence
                              |assumption]).
  cbn [dispatch] in H. injection H as <-. apply recorded_handleWheel, Hr.
Qed.

Lemma recorded_initial : inactivity_recorded initial.
Proof. intros id due H. cbn in H. rewrite lookup_empty in H. discriminate. Qed.

Lemma recorded_run tr :
  forall s0 s1,
    inactivity_recorded s0 -> run tr s0 = Some s1 -> inactivity_recorded s1.
Proof.
  induction tr as [|[e ev] tr IH]; intros s0 s1 Hr Hrun.
  - injection Hrun as <-. assumption.
  - cbn [run] in Hrun.
    destruct (dispatch e ev s0) as [c|] eqn:Hd; [|discriminate].
    apply (IH (after s0 c) s1); [|assumption].
    eapply recorded_dispatch; eassumption.
Qed.

(** X3: in every state reachable from the initial one, at most one inactivity
    callback is pending, and it is the one under the handle kept in
    [inactivityTimer]. *)
Theorem single_inactivity_timer tr s :
  run tr initial = Some s ->
  inactivity_recorded s
  /\ forall id1 due1 id2 due2,
       timers s !! id1 = Some (due1, CbInactivity) ->
       timers s !! id2 = Some (due2, CbInactivity) ->
       id1 = id2 /\ due1 = due2 /\ inactivityTimer s = Some id1.
Proof.
  intros Hrun.
  assert (Hr : inactivity_recorded s).
  { apply (recorded_run tr initial s); [apply recorded_initial|assumption]. }
  split; [exact Hr|].
  intros id1 due1 id2 due2 H1 H2.
  pose proof (Hr id1 due1 H1) as E1. pose proof (Hr id2 due2 H2) as E2.
  assert (id1 = id2) by congruence. subst id2.
  repeat split; [congruence|assumption].
Qed.

Lemma single_inactivity_timer_witness :
  exists s,
    run (take 4 wheelThenLeave) initial = Some s
    /\ inactivityTimer s = Some 4%positive
    /\ inactivity_recorded s.
Proof.
  eexists. split; [vm_compute; reflexivity|].
  split; [vm_compute; reflexivity|].
  apply (single_inactivity_timer (take 4 wheelThenLeave)).
  vm_compute; reflexivity.
Defined.

(** ** Mounting and unmounting *)

Lemma deliver_runtime e ev m :
  eventType ev = None ->
  deliver e ev m
  = (fun c => mkComponent (after (comp m) c) (listeners m))
      <$> dispatch e ev (comp m).
Proof.
  intros Hty. unfold deliver. rewrite Hty.
  destruct (dispatch e ev (comp m)); reflexivity.
Qed.

(** Clearing the recorded handle removes the only inactivity callback. *)
Lemma clearInactivity_none s :
  inactivity_recorded s -> no_inactivity (clearInactivity s).
Proof.
  intros Hr id due H. unfold clearInactivity in H.
  destruct (inactivityTimer s) as [old|] eqn:E.
  - unfold clearTimeout in H. simpl_state.
    apply lookup_delete_Some in H as [Hne H].
    specialize (Hr id due H). congruence.
  - specialize (Hr id due H). congruence.
Qed.

(** With no inactivity callback pending, a turn of the runtime (a timer, a
    settlement, the watcher) starts none and calls the refresh callback not. *)
Lemma runtime_turn_after_clear e ev m m' :
  no_inactivity (comp m) -> eventType ev = None ->
  deliver e ev m = Some m' ->
  no_inactivity (comp m') /\ listeners m' = listeners m
  /\ refreshCalls (comp m') = refreshCalls (comp m).
Proof.
  intros Hn Hty H.
  rewrite deliver_runtime in H by assumption.
  destruct (dispatch e ev (comp m)) as [c|] eqn:Hd; [|discriminate].
  cbn in H. injection H as <-. cbn [comp listeners].
  split; [|split; [reflexivity|]].
  - eapply no_inactivity_nni; [|exact Hn].
    eapply nni_dispatch; [|exact Hd].
    intros d target k ->. discriminate Hty.
  - destruct ev; try discriminate Hty; cbn [dispatch] in Hd.
    + destruct (timers (comp m) !! id) as [[due cb]|] eqn:Ht; [|discriminate].
      destruct (due <=? now e)%Z; [|discriminate]. injection Hd as <-.
      cbn [after]. destruct cb; [reflexivity|reflexivity|].
      exfalso. exact (Hn id due Ht).
    + destruct (pending (comp m) !! i) as [k|]; [|discriminate].
      injection Hd as <-. cbn [after].
      destruct (runFinally_frame k e
                  (set_pending (delete i (pending (comp m))) (comp m)))
        as (_ & _ & _ & _ & F5 & _).
      rewrite F5. reflexivity.
    + injection Hd as <-. cbn [after]. unfold watchIsLoading. cbv zeta.
      destruct newValue; reflexivity.
Qed.

Lemma runtime_run_after_clear tr :
  forall m0 m1,
    no_inactivity (comp m0) ->
    Forall (fun p => eventType (snd p) = None) tr ->
    runMounted tr m0 = Some m1 ->
    no_inactivity (comp m1) /\ refreshCalls (comp m1) = refreshCalls (comp m0).
Proof.
  induction tr as [|[e ev] tr IH]; intros m0 m1 Hn Hall Hrun.
  - injection Hrun as <-. auto.
  - inversion Hall as [|? ? Hty Htl]; subst. cbn [snd] in Hty.
    cbn [runMounted] in Hrun.
    destruct (deliver e ev m0) as [m2|] eqn:Hd; [|discriminate].
    destruct (runtime_turn_after_clear e ev m0 m2 Hn Hty Hd) as (H1 & _ & H3).
    destruct (IH m2 m1 H1 Htl Hrun) as (Ht1 & E1).
    split; [assumption|congruence].
Qed.

(** X4: unmounting cancels the pending inactivity callback, whether or not
    the container element is still there, so that in every run of timers,
    settlements and watcher turns that follows the refresh callback is never
    called again. *)
Theorem unmount_stops_refreshes e m tr :
  forall m',
    inactivity_recorded (comp m) ->
    Forall (fun p => eventType (snd p) = None) tr ->
    runMounted tr (onUnmounted e m) = Some m' ->
    refreshCalls (comp m') = refreshCalls (comp m)
    /\ no_inactivity (comp m').
Proof.
  intros m' Hr Hall Hrun.
  assert (E0 : refreshCalls (comp (onUnmounted e m)) = refreshCalls (comp m)
               /\ no_inactivity (comp (onUnmounted e m))).
  { unfold onUnmounted. destruct (containerRef e); cbn [comp];
      (split; [|apply clearInactivity_none; exact Hr]);
      match goal with |- refreshCalls (clearInactivity ?x) = _ =>
        destruct (clearInactivity_frame x) as (_ & _ & _ & _ & _ & _ & F & _)
      end; exact F. }
  destruct E0 as (E0 & N0).
  destruct (runtime_run_after_clear tr (onUnmounted e m) m' N0 Hall Hrun)
    as (Hn & E).
  split; [congruence|exact Hn].
Qed.

Lemma wheeledToThreshold_reached :
  run (take 4 wheelThenLeave) initial = Some wheeledToThreshold.
Proof. vm_compute; reflexivity. Qed.

Lemma unmount_stops_refreshes_witness :
  refreshCalls <$> run [(atTop 210, TimerFire 4)] wheeledToThreshold
  = Some 1%nat
  /\ runMounted [(detached 210, TimerFire 4)]
       (onUnmounted (detached 165)
          (mkComponent wheeledToThreshold (list_to_set domEvents)))
     = None
  /\ exists m',
       runMounted [(detached 300, LoadingChanged false);
                   (detached 800, TimerFire 5)]
         (onUnmounted (detached 165)
            (mkComponent wheeledToThreshold (list_to_set domEvents)))
       = Some m'
       /\ refreshCalls (comp m') = 0%nat.
Proof.
  split; [vm_compute; reflexivity|]. split; [vm_compute; reflexivity|].
  eexists. split; [vm_compute; reflexivity|].
  apply (unmount_stops_refreshes (detached 165)
           (mkComponent wheeledToThreshold (list_to_set domEvents))
           [(detached 300, LoadingChanged false); (detached 800, TimerFire 5)]).
  - apply (recorded_run (take 4 wheelThenLeave) initial);
      [apply recorded_initial|apply wheeledToThreshold_reached].
  - repeat constructor.
  - vm_compute; reflexivity.
Defined.

(** The recorded handle is never reused for a timer of another kind. *)
Lemma own_dispatch e ev s c :
  handles_fresh s -> handle_own s -> dispatch e ev s = Some c ->
  handle_own (after s c).
Proof.
  intros Hf Ho Hd.
  assert (Hnw : (forall d target k, ev <> Wheel d target k) ->
                handle_own (after s c)).
  { intros Hw.
    assert (Hi : inactivityTimer (after s c) = inactivityTimer s)
      by (eapply nni_dispatch; eassumption).
    intros id due cb Hid Ht. rewrite Hi in Hid.
    destruct Hf as (_ & Hf2). specialize (Hf2 id Hid).
    destruct (leavesTimer id ev) eqn:Hl.
    - rewrite (leavesTimer_dispatch e ev s c id Hl Hf2 Hd) in Ht.
      exact (Ho id due cb Hid Ht).
    - exfalso. destruct ev; try discriminate Hl.
      + eapply Hw. reflexivity.
      + cbn [leavesTimer] in Hl. apply negb_false_iff, Pos.eqb_eq in Hl.
        subst id0. cbn [dispatch] in Hd.
        destruct (timers s !! id) as [[due0 cb0]|]; [|discriminate].
        destruct (due0 <=? now e)%Z; [|discriminate]. injection Hd as <-.
        cbn [after] in Ht.
        destruct (grows_runCallback cb0 e (clearTimeout id s)) as (_ & R).
        rewrite R in Ht by exact Hf2.
        unfold clearTimeout in Ht. simpl_state.
        rewrite lookup_delete_eq in Ht. discriminate. }
  destruct ev as [| | | | | | |d target k| | |]; try (apply Hnw; congruence).
  cbn [dispatch] in Hd. injection Hd as <-. cbn [after]. unfold handleWheel.
  destruct (isRefreshing s); [assumption|].
  destruct (Qltb 0 (scrollY e)); [exact Ho|].
  destruct (isScrollable (containerRef e) target); [assumption|].
  intros id due cb Hid Ht.
  destruct (wheelBody_timers e d k s) as (W1 & W2).
  rewrite W1 in Hid. injection Hid as <-.
  destruct (triggersAtOnce e d s).
  - destruct W2 as (W2 & _). congruence.
  - destruct W2 as (W2 & _). rewrite W2 in Ht.
    destruct (resetInactivityTimer_frame e s)
      as (_ & _ & _ & _ & _ & _ & _ & _ & _ & _ & _ & Ft).
    rewrite Ft, lookup_insert_eq in Ht. congruence.
Qed.

Lemma own_run tr :
  forall s0 s1,
    handles_fresh s0 -> handle_own s0 -> run tr s0 = Some s1 -> handle_own s1.
Proof.
  induction tr as [|[e ev] tr IH]; intros s0 s1 Hf Ho Hrun.
  - injection Hrun as <-. assumption.
  - cbn [run] in Hrun.
    destruct (dispatch e ev s0) as [c|] eqn:Hd; [|discriminate].
    apply (IH (after s0 c) s1); [| |assumption].
    + eapply evolves_fresh; [eapply evolves_dispatch; eassumption|assumption].
    + eapply own_dispatch; eassumption.
Qed.

(** X5: unmounting cancels only the inactivity timer.  A reset scheduled by
    a [finally] block or by the watcher stays pending in the component's
    timer table, and once due it still runs and zeroes the distance. *)
Theorem unmount_keeps_reset_timers tr s e L id due cb :
  run tr initial = Some s ->
  timers s !! id = Some (due, cb) -> cb <> CbInactivity ->
  let m := onUnmounted e (mkComponent s L) in
  timers (comp m) !! id = Some (due, cb)
  /\ forall e2, (due <= now e2)%Z ->
       exists m',
         deliver e2 (TimerFire id) m = Some m'
         /\ pullDistance (comp m') = 0
         /\ timers (comp m') !! id = None.
Proof.
  intros Hrun Ht Hcb. cbv zeta.
  assert (Ho : handle_own s).
  { apply (own_run tr initial s); [apply handles_fresh_initial| |assumption].
    intros ? ? ? H. discriminate H. }
  assert (Ec : comp (onUnmounted e (mkComponent s L)) = clearInactivity s).
  { unfold onUnmounted. destruct (containerRef e); reflexivity. }
  assert (Hk : timers (clearInactivity s) !! id = Some (due, cb)).
  { unfold clearInactivity. destruct (inactivityTimer s) as [old|] eqn:E;
      [|assumption].
    unfold clearTimeout. simpl_state. rewrite lookup_delete_ne; [assumption|].
    intros ->. apply Hcb. exact (Ho id due cb E Ht). }
  rewrite Ec. split; [exact Hk|].
  intros e2 Hdue. rewrite deliver_runtime by reflexivity.
  rewrite Ec. cbn [dispatch]. rewrite Hk.
  apply Z.leb_le in Hdue. rewrite Hdue. cbn [fmap option_fmap option_map].
  eexists. split; [reflexivity|]. cbn [comp after].
  destruct cb; [| |congruence]; cbn [runCallback]; unfold clearTimeout;
    simpl_state; (split; [reflexivity|apply lookup_delete_eq]).
Qed.

Lemma unmount_keeps_reset_timers_witness :
  exists s,
    run (take 4 releaseScenario) initial = Some s
    /\ timers (comp (onUnmounted (atTop 950)
                       (mkComponent s (list_to_set domEvents)))) !! 1%positive
       = Some (1400%Z, CbSettle).
Proof.
  eexists. split; [vm_compute; reflexivity|].
  apply (unmount_keeps_reset_timers (take 4 releaseScenario) _ (atTop 950)
           (list_to_set domEvents) 1%positive 1400%Z CbSettle).
  - vm_compute; reflexivity.
  - vm_compute; reflexivity.
  - discriminate.
Defined.


(** ** Calls of the refresh callback *)

Lemma handleEnd_refresh e s :
  refreshCalls (handleEnd e s) = refreshCalls s
  \/ refreshCalls (handleEnd e s) = S (refreshCalls s)
     /\ isRefreshing (handleEnd e s) = true
     /\ pullDistance (handleEnd e s) = threshold e
     /\ isPulling (handleEnd e s) = false.
Proof.
  unfold handleEnd. cbv zeta.
  destruct (negb (isPulling (set_isDragging false s))); [left; reflexivity|].
  destruct (Qleb (threshold e) (pullDistance (set_isDragging false s)));
    [|left; reflexivity].
  right.
  match goal with |- context [awaitRefresh ?k e ?x] =>
    destruct (awaitRefresh_frame k e x) as (F1 & F2 & F3 & _ & F5 & _)
  end.
  rewrite F1, F2, F3, F5. repeat split.
Qed.

Lemma executeRefresh_refresh e s :
  refreshCalls (executeRefresh e s) = S (refreshCalls s)
  /\ isRefreshing (executeRefresh e s) = true
  /\ pullDistance (executeRefresh e s) = threshold e
  /\ isPulling (executeRefresh e s) = false.
Proof.
  destruct (executeRefresh_frame e s) as (F1 & F2 & F3 & _ & F5 & _).
  auto.
Qed.

Lemma wheelBody_refresh e d c s :
  refreshCalls (wheelBody e d c s) = refreshCalls s
  \/ refreshCalls (wheelBody e d c s) = S (refreshCalls s)
     /\ isRefreshing (wheelBody e d c s) = true
     /\ pullDistance (wheelBody e d c s) = threshold e
     /\ isPulling (wheelBody e d c s) = false.
Proof.
  destruct (resetInactivityTimer_frame e s)
    as (_ & _ & _ & _ & _ & _ & Fn & _).
  destruct (Qltb d 0) eqn:Hd.
  - apply Qltb_lt in Hd.
    destruct (Z.lt_ge_cases (now e - lastWheelTime s) 16) as [Hw|Hw].
    + left. rewrite wheelBody_throttled by assumption. simpl_state. exact Fn.
    + rewrite wheelBody_flush by assumption. cbv zeta.
      destruct (flush_state_fields e c s (flushed e d s))
        as (_ & _ & _ & G4 & _).
      destruct (Qleb (threshold e) (flushed e d s) && Qltb 50 (- d)).
      * right.
        match goal with |- context [executeRefresh e (clearInactivity ?x)] =>
          destruct (executeRefresh_refresh e (clearInactivity x))
            as (X1 & X2 & X3 & X4);
          destruct (clearInactivity_frame x)
            as (_ & _ & _ & _ & _ & _ & Y7 & _)
        end.
        rewrite X1, X2, X3, X4, Y7, G4. repeat split.
      * left. exact G4.
  - left. destruct (wheelBody_downward_fields e d c s Hd)
      as (_ & _ & _ & _ & _ & _ & _ & _ & W9 & _).
    exact W9.
Qed.

(** X7: one turn of the event loop calls the refresh callback at most once;
    start, move, settlement and watcher turns never call it; and a turn that
    does call it leaves the component Refreshing, at the threshold, with
    Pulling cleared. *)
Theorem refresh_calls_per_turn e ev s c :
  dispatch e ev s = Some c ->
  (refreshCalls (after s c) = refreshCalls s
   \/ refreshCalls (after s c) = S (refreshCalls s))
  /\ (mayRefresh ev = false -> refreshCalls (after s c) = refreshCalls s)
  /\ (refreshCalls (after s c) = S (refreshCalls s) ->
      isRefreshing (after s c) = true
      /\ pullDistance (after s c) = threshold e
      /\ isPulling (after s c) = false).
Proof.
  intros H.
  assert (G : refreshCalls (after s c) = refreshCalls s
              /\ (mayRefresh ev = false -> refreshCalls (after s c) = refreshCalls s)
              \/ mayRefresh ev = true
                 /\ refreshCalls (after s c) = S (refreshCalls s)
                 /\ isRefreshing (after s c) = true
                 /\ pullDistance (after s c) = threshold e
                 /\ isPulling (after s c) = false).
  { destruct ev; cbn [dispatch] in H.
    - injection H as <-. left. unfold handleTouchStart.
      destruct touches; [auto|]. cbn [after].
      destruct (handleStart_fields e (clientY t) target s)
        as (_ & _ & _ & _ & F5 & _). auto.
    - injection H as <-. left. unfold handleTouchMove.
      destruct touches; [auto|]. cbn [after].
      destruct (handleMove_fields e (clientY t) cancelable s)
        as (_ & _ & F3 & _). auto.
    - injection H as <-. cbn [handleTouchEnd after].
      destruct (handleEnd_refresh e s) as [E|E]; [left|right]; auto.
    - injection H as <-. left. cbn [after]. unfold handleMouseDown.
      destruct (handleStart_fields e y target s) as (_ & _ & _ & _ & F5 & _).
      auto.
    - injection H as <-. left. cbn [after]. unfold handleMouseMove.
      destruct (isDragging s); [|auto].
      destruct (handleMove_fields e y cancelable s) as (_ & _ & F3 & _). auto.
    - injection H as <-. cbn [after]. unfold handleMouseUp.
      destruct (handleEnd_refresh e s) as [E|E]; [left|right]; auto.
    - injection H as <-. cbn [after]. unfold handleMouseLeave.
      destruct (handleEnd_refresh e s) as [E|E]; [left|right]; auto.
    - injection H as <-. cbn [after]. unfold handleWheel.
      destruct (isRefreshing s); [left; auto|].
      destruct (Qltb 0 (scrollY e)); [left; auto|].
      destruct (isScrollable (containerRef e) target); [left; auto|].
      destruct (wheelBody_refresh e deltaY cancelable s) as [E|E];
        [left|right]; auto.
    - destruct (timers s !! id) as [[due cb]|]; [|discriminate].
      destruct (due <=? now e)%Z; [|discriminate]. injection H as <-.
      cbn [after]. destruct cb; cbn [runCallback]; [left; auto|left; auto|].
      replace (pullDistance (clearTimeout id s)) with (pullDistance s)
        by reflexivity.
      destruct (Qleb (threshold e) (pullDistance s)).
      + right. simpl_state.
        destruct (executeRefresh_refresh e (clearTimeout id s))
          as (X1 & X2 & X3 & X4).
        rewrite X1, X2, X3, X4. repeat split.
      + left. simpl_state. auto.
    - destruct (pending s !! i) as [k|]; [|discriminate]. injection H as <-.
      left. cbn [after].
      destruct (runFinally_frame k e (set_pending (delete i (pending s)) s))
        as (_ & _ & _ & _ & F5 & _).
      rewrite F5. auto.
    - injection H as <-. left. cbn [after]. unfold watchIsLoading. cbv zeta.
      destruct newValue; auto. }
  destruct G as [(E & Hm)|(Hm & E & R)].
  - split; [left; exact E|]. split; [exact Hm|].
    intros E'. rewrite E in E'. exfalso. revert E'. apply n_Sn.
  - split; [right; exact E|]. split; [congruence|]. intros _. exact R.
Qed.

Lemma refresh_calls_per_turn_witness :
  refreshCalls (handleEnd (atTop 30) pulledTo60) = 1%nat
  /\ pullDistance (handleEnd (atTop 30) pulledTo60) = threshold (atTop 30).
Proof.
  destruct (refresh_calls_per_turn (atTop 30) MouseUp pulledTo60
              (Normal (handleEnd (atTop 30) pulledTo60)) eq_refl)
    as (_ & _ & H).
  split; [reflexivity|]. apply H. reflexivity.
Defined.

(** ** Scrolling back with the wheel *)

(** X8: a downward or flat wheel event ([deltaY >= 0]) that passes the guards
    lowers the distance by [deltaY * 0.5], not below 0; it never raises it,
    never calls the refresh callback and leaves the accumulator alone;
    Pulling is cleared when a positive distance reaches 0 and is never set;
    and the native scroll is suppressed only for a cancelable event that
    leaves the component Pulling. *)
Theorem wheel_down_decays e d target c s :
  isRefreshing s = false -> scrollY e <= 0 ->
  isScrollable (containerRef e) target = false ->
  0 <= d -> 0 <= pullDistance s ->
  let s' := handleWheel e d target c s in
  pullDistance s' == Qmax 0 (pullDistance s - d * (1#2))
  /\ 0 <= pullDistance s' /\ pullDistance s' <= pullDistance s
  /\ (isPulling s' = true -> isPulling s = true)
  /\ (0 < pullDistance s -> pullDistance s' == 0 -> isPulling s' = false)
  /\ refreshCalls s' = refreshCalls s
  /\ accumulatedDelta s' = accumulatedDelta s
  /\ isRefreshing s' = false
  /\ (prevented s' <> prevented s ->
      c = true /\ isPulling s' = true /\ 0 < pullDistance s').
Proof.
  intros Hr Ht Hi Hd Hp. cbv zeta. rewrite handleWheel_passes by assumption.
  assert (Hd' : Qltb d 0 = false) by (apply Qltb_ge; assumption).
  destruct (wheelBody_downward_fields e d c s Hd')
    as (W1 & W2 & W3 & W4 & _ & W6 & _ & _ & W9 & _).
  rewrite W1, W2, W3, W4, W6, W9.
  set (decayed := Qmax 0 (pullDistance s - d * (1#2))).
  assert (Hdec : 0 <= decayed /\ decayed <= pullDistance s).
  { unfold decayed. split; [apply Q.le_max_l|apply Q.max_lub; lra]. }
  destruct Hdec as (Hd0 & Hd1).
  destruct (Qltb 0 (pullDistance s)) eqn:Hpos; cbn [andb].
  - apply Qltb_lt in Hpos.
    split; [reflexivity|]. split; [exact Hd0|]. split; [exact Hd1|].
    destruct (Qeq_bool decayed 0) eqn:Hz; cbn [negb andb].
    + rewrite andb_false_r. cbn [andb].
      split; [discriminate|]. split; [reflexivity|].
      split; [reflexivity|]. split; [reflexivity|]. split; [exact Hr|].
      intros H. congruence.
    + assert (Hnz : ~ decayed == 0).
      { intros E. apply Qeq_bool_iff in E. congruence. }
      split; [tauto|]. split; [intros _ E; contradiction|].
      split; [reflexivity|]. split; [reflexivity|]. split; [exact Hr|].
      intros H. destruct c; cbn [andb] in H; [|congruence].
      destruct (isPulling s); [|congruence].
      split; [reflexivity|]. split; [reflexivity|].
      destruct (Qle_lt_or_eq _ _ Hd0) as [Hlt|Heq]; [assumption|].
      exfalso. apply Hnz. symmetry. assumption.
  - apply Qltb_ge in Hpos.
    assert (Hz : pullDistance s == 0) by lra.
    split; [unfold decayed; rewrite Q.max_l by lra; assumption|].
    split; [assumption|]. split; [apply Qle_refl|].
    split; [tauto|]. split; [intros H; lra|].
    split; [reflexivity|]. split; [reflexivity|]. split; [exact Hr|].
    intros H. congruence.
Qed.

Lemma wheel_down_decays_witness :
  pullDistance (handleWheel (atTop 130) 20 paragraph true wheeledTo30) == 20.
Proof.
  destruct (wheel_down_decays (atTop 130) 20 paragraph true wheeledTo30
              eq_refl ltac:(discriminate) eq_refl ltac:(discriminate)
              ltac:(discriminate))
    as (H & _).
  rewrite H. reflexivity.
Defined.

(** ** Whole gestures *)

(** X9: a press and a release with no move in between never call the refresh
    callback and leave an Idle component Idle: whether the press was accepted
    or not, only [startY] may have changed. *)
Theorem press_release_without_move e1 e2 y target s :
  gestureState s = Idle ->
  let s' := handleEnd e2 (handleStart e1 y target s) in
  (s' = s \/ s' = set_startY y s)
  /\ gestureState s' = Idle
  /\ pullDistance s' = pullDistance s
  /\ refreshCalls s' = refreshCalls s
  /\ timers s' = timers s /\ pending s' = pending s.
Proof.
  unfold gestureState. intros Hg.
  destruct (isRefreshing s) eqn:Hr; [discriminate|].
  destruct (isPulling s) eqn:Hp; [discriminate|].
  destruct (isDragging s) eqn:Hd; [discriminate|].
  cbv zeta.
  assert (Hs : handleStart e1 y target s = set_isDragging true (set_startY y s)
               \/ handleStart e1 y target s = s).
  { unfold handleStart.
    destruct (Qleb (scrollY e1) 5 && negb (isRefreshing s));
      [destruct (isScrollable (containerRef e1) target)|]; auto. }
  destruct Hs as [-> | ->].
  - rewrite handleEnd_not_pulling by exact Hp.
    assert (E : set_isDragging false (set_isDragging true (set_startY y s))
                = set_startY y s).
    { destruct s; cbn in *. subst. reflexivity. }
    rewrite E. simpl_state. rewrite Hr, Hp, Hd. repeat split.
    right. reflexivity.
  - rewrite handleEnd_not_pulling by exact Hp.
    rewrite set_isDragging_same by exact Hd.
    rewrite Hr, Hp, Hd. repeat split. left. reflexivity.
Qed.

Lemma press_release_without_move_witness :
  handleEnd (atTop 20) (handleStart (atTop 10) 100 paragraph initial)
  = set_startY 100 initial
  \/ refreshCalls
       (handleEnd (atTop 20) (handleStart (atTop 10) 100 paragraph initial))
     = 0%nat.
Proof.
  destruct (press_release_without_move (atTop 10) (atTop 20) 100 paragraph
              initial eq_refl) as (_ & _ & _ & H & _).
  right. exact H.
Defined.

(** X10: a release right after a move that is not a pull (the pointer at or
    above its start point, or the page more than 5 away from its top) never
    calls the refresh callback, however far the pull had gone before: the
    move has zeroed the distance and cleared Pulling, and the release leaves
    the component Idle. *)
Theorem release_after_return_never_refreshes e1 e2 y c s :
  isDragging s = true -> isRefreshing s = false ->
  y <= startY s \/ 5 < scrollY e1 ->
  let s' := handleEnd e2 (handleMove e1 y c s) in
  refreshCalls s' = refreshCalls s
  /\ pullDistance s' = 0
  /\ gestureState s' = Idle
  /\ prevented s' = prevented s
  /\ timers s' = timers s /\ pending s' = pending s.
Proof.
  intros Hd Hr Hy. cbv zeta.
  assert (E : handleMove e1 y c s
              = (if Qltb (y - startY s) 0
                 then set_isDragging false
                        (set_pullDistance 0 (set_isPulling false s))
                 else set_pullDistance 0 (set_isPulling false s))).
  { unfold handleMove. rewrite Hd, Hr. cbn [negb]. cbv zeta.
    assert (G : Qltb 0 (y - startY s) && Qleb (scrollY e1) 5 = false).
    { destruct Hy as [Hy|Hy].
      - assert (G1 : Qltb 0 (y - startY s) = false) by (apply Qltb_ge; lra).
        rewrite G1. reflexivity.
      - apply Qleb_gt in Hy. rewrite Hy. apply andb_false_r. }
    rewrite G. reflexivity. }
  rewrite E.
  destruct (Qltb (y - startY s) 0);
    rewrite handleEnd_not_pulling by reflexivity;
    unfold gestureState; simpl_state; rewrite Hr; repeat split.
Qed.

Lemma release_after_return_never_refreshes_witness :
  gestureState (handleEnd (atTop 40) (handleMove (atTop 30) 90 true pulledTo60))
  = Idle.
Proof.
  assert (H0 : 90 <= startY pulledTo60 \/ 5 < scrollY (atTop 30))
    by (left; discriminate).
  destruct (release_after_return_never_refreshes (atTop 30) (atTop 40) 90 true
              pulledTo60 eq_refl eq_refl H0)
    as (_ & _ & H & _).
  exact H.
Defined.

(** ** The indicator and the release *)

Lemma labels_differ : labelRelease <> labelPull /\ labelRelease <> labelRefreshing.
Proof. split; intros H; vm_compute in H; discriminate H. Qed.

(** X11: during a pull that is not Refreshing, the indicator is honest one
    way only.  When it says "release to refresh" a release does call the
    refresh callback; but it says so only strictly over the threshold, while
    a release refreshes from the threshold on: at exactly the threshold the
    indicator still says "pull down" and the release refreshes.  Under the
    threshold it says "pull down" and the release does not refresh. *)
Theorem release_label_and_release e s :
  isPulling s = true -> isRefreshing s = false ->
  (label (render e s) = labelRelease ->
   refreshCalls (handleEnd e s) = S (refreshCalls s))
  /\ (pullDistance s == threshold e ->
      label (render e s) = labelPull
      /\ icon (render e s) = ArrowDown
      /\ refreshCalls (handleEnd e s) = S (refreshCalls s))
  /\ (pullDistance s < threshold e ->
      label (render e s) = labelPull
      /\ refreshCalls (handleEnd e s) = refreshCalls s).
Proof.
  intros Hp Hr. unfold render. cbn [label icon]. rewrite Hr.
  assert (Hover : threshold e <= pullDistance s ->
                  refreshCalls (handleEnd e s) = S (refreshCalls s)).
  { intros H. rewrite handleEnd_over by assumption.
    match goal with |- context [awaitRefresh ?k e ?x] =>
      destruct (awaitRefresh_frame k e x) as (_ & _ & _ & _ & F5 & _)
    end.
    rewrite F5. reflexivity. }
  split; [|split].
  - destruct (Qltb (threshold e) (pullDistance s)) eqn:E.
    + intros _. apply Hover. apply Qltb_lt in E. lra.
    + intros H. exfalso. destruct labels_differ as (Hne & _). congruence.
  - intros H.
    assert (E : Qltb (threshold e) (pullDistance s) = false)
      by (apply Qltb_ge; lra).
    rewrite E. split; [reflexivity|]. split; [reflexivity|].
    apply Hover. lra.
  - intros H.
    assert (E : Qltb (threshold e) (pullDistance s) = false)
      by (apply Qltb_ge; lra).
    rewrite E. split; [reflexivity|].
    rewrite handleEnd_under by assumption. reflexivity.
Qed.

Lemma release_label_and_release_witness :
  label (render (atTop 30) pulledTo60) = labelPull
  /\ refreshCalls (handleEnd (atTop 30) pulledTo60) = 1%nat.
Proof.
  destruct (release_label_and_release (atTop 30) pulledTo60 eq_refl eq_refl)
    as (_ & H & _).
  destruct (H eq_refl) as (H1 & _ & H3). split; [exact H1|exact H3].
Defined.

(** ** Runs while Refreshing *)

(** X12: while Refreshing, any sequence of start, move and wheel events
    (touch or mouse, well-formed or with an empty touch list) goes through and
    leaves the whole component exactly as it was. *)
Theorem refreshing_ignores_inputs tr :
  forall s,
    isRefreshing s = true ->
    forallb (fun p => isGuardedInput (snd p)) tr = true ->
    run tr s = Some s.
Proof.
  induction tr as [|[e ev] tr IH]; intros s Hr Hall; [reflexivity|].
  cbn [forallb snd] in Hall. apply andb_true_iff in Hall as [Hev Hall].
  destruct (refreshing_blocks_inputs s Hr) as (B1 & B2 & B3 & B4).
  cbn [run].
  destruct ev; try discriminate Hev; cbn [dispatch].
  - unfold handleTouchStart. destruct touches; cbn [after];
      rewrite ?B1; apply IH; assumption.
  - unfold handleTouchMove. destruct touches; cbn [after];
      rewrite ?B2; apply IH; assumption.
  - cbn [after]. unfold handleMouseDown. rewrite B1. apply IH; assumption.
  - cbn [after]. rewrite B3. apply IH; assumption.
  - cbn [after]. rewrite B4. apply IH; assumption.
Qed.

Lemma refreshing_ignores_inputs_witness :
  run [(atTop 40, TouchStart [] paragraph); (atTop 50, MouseDown 10 paragraph);
       (atTop 60, MouseMove 400 true); (atTop 70, Wheel (-300) paragraph true)]
    (handleEnd (atTop 30) pulledTo60)
  = Some (handleEnd (atTop 30) pulledTo60).
Proof.
  apply (refreshing_ignores_inputs
           [(atTop 40, TouchStart [] paragraph); (atTop 50, MouseDown 10 paragraph);
            (atTop 60, MouseMove 400 true); (atTop 70, Wheel (-300) paragraph true)]
           (handleEnd (atTop 30) pulledTo60)); reflexivity.
Defined.

(** X13: a refresh started by [executeRefresh] whose promise settles while
    [isLoading] is true schedules no reset.  With no press under way and
    nothing else pending, no run of events, timers and settlements ends
    Refreshing: only the watcher on [isLoading] can. *)
Theorem refresh_waits_for_watcher e es s tr s' :
  isDragging s = false -> timers s = ∅ -> pending s = [] ->
  onRefreshThrows e = false -> isLoading es = true ->
  quiet tr = true ->
  run ((es, Settle 0) :: tr) (executeRefresh e s) = Some s' ->
  gestureState s' = Refreshing
  /\ pullDistance s' = threshold e
  /\ timers s' = ∅ /\ pending s' = [].
Proof.
  intros Hd Ht Hp Hth Hl Hq Hrun.
  destruct (executeRefresh_frame e s) as (F1 & F2 & F3 & F4 & _).
  assert (Fp : pending (executeRefresh e s) = [FinallyExec]
               /\ timers (executeRefresh e s) = ∅).
  { unfold executeRefresh, awaitRefresh. rewrite Hth. simpl_state.
    rewrite Hp, Ht. split; reflexivity. }
  destruct Fp as (Fp & Ft).
  cbn [run dispatch] in Hrun. rewrite Fp in Hrun. cbn [lookup] in Hrun.
  cbn in Hrun. rewrite Hl in Hrun. cbn [negb after] in Hrun.
  set (s1 := set_pending [] (executeRefresh e s)) in Hrun.
  assert (I1 : isRefreshing s1 = true /\ isPulling s1 = false
               /\ isDragging s1 = false /\ pullDistance s1 = threshold e
               /\ timers s1 = ∅ /\ pending s1 = []).
  { unfold s1. simpl_state. rewrite F1, F2, F3, F4, Hd, Ft. repeat split. }
  clearbody s1. clear - I1 Hq Hrun.
  revert s1 I1 Hrun.
  induction tr as [|[e0 ev] tr IH]; intros s1 I1 Hrun.
  - injection Hrun as <-. destruct I1 as (Hr & _ & _ & Hpd & Htm & Hpe).
    unfold gestureState. rewrite Hr. auto.
  - cbn [quiet forallb snd] in Hq. apply andb_true_iff in Hq as [Hq1 Hq].
    apply negb_true_iff in Hq1.
    destruct I1 as (Hr & Hpl & Hdr & Hpd & Htm & Hpe).
    cbn [run] in Hrun.
    destruct (dispatch e0 ev s1) as [c|] eqn:Hdis; [|discriminate].
    assert (Hstay : after s1 c = s1 ->
                    gestureState s' = Refreshing
                    /\ pullDistance s' = threshold e
                    /\ timers s' = ∅ /\ pending s' = []).
    { intros E. rewrite E in Hrun. apply (IH Hq s1); [|assumption].
      repeat split; assumption. }
    destruct ev;
      try (apply Hstay; eapply refreshing_turn_frame; eauto; congruence).
    + cbn [dispatch] in Hdis. rewrite Htm, lookup_empty in Hdis. discriminate.
    + cbn [dispatch] in Hdis. rewrite Hpe in Hdis. discriminate.
Qed.

Lemma refresh_waits_for_watcher_witness :
  exists s',
    run [(atTopLoading 900, Settle 0); (atTopLoading 950, MouseDown 10 paragraph);
         (atTopLoading 960, MouseUp)]
      (executeRefresh (atTop 30) initial) = Some s'
    /\ gestureState s' = Refreshing.
Proof.
  eexists. split; [vm_compute; reflexivity|].
  apply (refresh_waits_for_watcher (atTop 30) (atTopLoading 900) initial
           [(atTopLoading 950, MouseDown 10 paragraph); (atTopLoading 960, MouseUp)]
           _ eq_refl eq_refl eq_refl eq_refl eq_refl eq_refl).
  vm_compute; reflexivity.
Defined.

(** ** Deltas that are never flushed *)

(** X14: the inactivity callback tests the visible distance only.  After a
    burst of throttled wheel events, whatever the accumulator holds, a timer
    run with the visible distance under the threshold calls no refresh,
    zeroes the distance and drops the accumulated deltas. *)
Theorem unflushed_deltas_are_dropped s burst :
  isRefreshing s = false ->
  Forall (throttledUp (lastWheelTime s)) burst ->
  exists sb,
    run burst s = Some sb
    /\ accumulatedDelta sb = scaledSum burst (accumulatedDelta s)
    /\ forall e2 id due,
         timers sb !! id = Some (due, CbInactivity) ->
         (due <= now e2)%Z -> pullDistance s < threshold e2 ->
         exists s3,
           dispatch e2 (TimerFire id) sb = Some (Normal s3)
           /\ refreshCalls s3 = refreshCalls s
           /\ pullDistance s3 = 0 /\ accumulatedDelta s3 = 0
           /\ isPulling s3 = false.
Proof.
  intros Hr Hall.
  destruct (throttled_burst burst s Hr Hall)
    as (sb & Hrun & Hpd & _ & _ & _ & Hn & Ha).
  exists sb. split; [exact Hrun|]. split; [exact Ha|].
  intros e2 id due Ht Hdue Hlt.
  destruct (fire_CbInactivity e2 sb id due Ht) as (_ & Hfire).
  destruct (Hfire Hdue) as (s3 & Hd & Hacc & _ & Hunder).
  rewrite Hpd in Hunder.
  destruct (Hunder Hlt) as (U1 & U2 & U3 & _).
  exists s3. rewrite <- Hn. auto.
Qed.

Lemma unflushed_deltas_are_dropped_witness :
  exists sb,
    run bigBurst wheeledTo30 = Some sb
    /\ accumulatedDelta sb == 60
    /\ refreshCalls <$> run (bigBurst ++ [(atTop 158, TimerFire 3)]) wheeledTo30
       = Some 0%nat.
Proof.
  assert (Hall : Forall (throttledUp (lastWheelTime wheeledTo30)) bigBurst).
  { repeat constructor; discriminate. }
  destruct (unflushed_deltas_are_dropped wheeledTo30 bigBurst eq_refl Hall)
    as (sb & Hrun & Ha & _).
  exists sb. split; [exact Hrun|]. split; [rewrite Ha; reflexivity|].
  vm_compute; reflexivity.
Defined.

(** ** The watcher *)

(** X15: when [isLoading] turns false the Refreshing flag is cleared in the
    same turn but the distance is left as it is; it is zeroed by a timer due
    500ms later, which cannot run earlier and, when it runs, writes the
    distance only.  So a pull begun within those 500ms is interrupted: the
    timer zeroes the distance of the pull under way and leaves it Pulling.
    When [isLoading] turns true the component shows Refreshing and nothing
    is scheduled. *)
Theorem loading_end_resets_after_delay e s :
  (let s' := watchIsLoading e false s in
   isRefreshing s' = false /\ pullDistance s' = pullDistance s
   /\ isPulling s' = isPulling s
   /\ timers s' = <[nextTimer s := ((now e + 500)%Z, CbWatchReset)]> (timers s))
  /\ (let s' := watchIsLoading e true s in
      gestureState s' = Refreshing /\ pullDistance s' = pullDistance s
      /\ timers s' = timers s)
  /\ (forall e2 s2 id due,
        timers s2 !! id = Some (due, CbWatchReset) ->
        ((now e2 < due)%Z -> dispatch e2 (TimerFire id) s2 = None)
        /\ ((due <= now e2)%Z ->
            dispatch e2 (TimerFire id) s2
            = Some (Normal (set_pullDistance 0 (clearTimeout id s2)))))
  /\ (forall e1 e2 e3 y0 y target c,
        scrollY e1 <= 5 -> isScrollable (containerRef e1) target = false ->
        scrollY e2 <= 5 -> y0 < y -> (now e + 500 <= now e3)%Z ->
        let pulled :=
          handleMove e2 y c (handleStart e1 y0 target (watchIsLoading e false s)) in
        pullDistance pulled = (y - y0) * (4#10)
        /\ exists s3,
             dispatch e3 (TimerFire (nextTimer s)) pulled = Some (Normal s3)
             /\ pullDistance s3 = 0 /\ isPulling s3 = true
             /\ isDragging s3 = true).
Proof.
  split; [|split; [|split]].
  - unfold watchIsLoading. cbn. repeat split.
  - unfold watchIsLoading, gestureState. cbn. repeat split.
  - intros e2 s2 id due H. cbn [dispatch]. rewrite H. split; intros Hd.
    + apply Z.leb_gt in Hd. rewrite Hd. reflexivity.
    + apply Z.leb_le in Hd. rewrite Hd. reflexivity.
  - intros e1 e2 e3 y0 y target c H1 Hi H2 Hy Hdue. cbv zeta.
    set (s1 := watchIsLoading e false s).
    assert (Hs1 : isRefreshing s1 = false
                  /\ timers s1 !! nextTimer s
                     = Some ((now e + 500)%Z, CbWatchReset)).
    { unfold s1, watchIsLoading. cbn. split; [reflexivity|].
      apply lookup_insert_eq. }
    destruct Hs1 as (Hr1 & Ht1).
    assert (Es : handleStart e1 y0 target s1
                 = set_isDragging true (set_startY y0 s1)).
    { unfold handleStart. apply Qleb_le in H1. rewrite H1, Hr1, Hi. reflexivity. }
    rewrite Es. set (s2 := set_isDragging true (set_startY y0 s1)).
    assert (Em : handleMove e2 y c s2
                 = set_pullDistance ((y - startY s2) * (4#10))
                     (set_isPulling true (preventDefaultIf c s2))).
    { apply handleMove_down; try assumption; try reflexivity.
      unfold s2. simpl_state. lra. }
    rewrite Em. unfold s2 at 1. simpl_state. split; [reflexivity|].
    cbn [dispatch]. simpl_state.
    destruct (preventDefaultIf_full c s2) as (_ & _ & _ & _ & Ft & _).
    rewrite Ft. unfold s2 at 1. simpl_state. rewrite Ht1.
    apply Z.leb_le in Hdue. rewrite Hdue.
    eexists. split; [reflexivity|]. cbn [runCallback]. unfold clearTimeout.
    simpl_state. destruct (preventDefaultIf_frame c s2) as (_ & _ & _ & _ & Fd).
    rewrite Fd. repeat split.
Qed.

Lemma loading_end_resets_after_delay_witness :
  exists s3,
    dispatch (atTop 500) (TimerFire (nextTimer initial))
      (handleMove (atTop 200) 250 true
         (handleStart (atTop 100) 100 paragraph
            (watchIsLoading (atTop 0) false initial)))
    = Some (Normal s3)
    /\ pullDistance s3 = 0 /\ isPulling s3 = true.
Proof.
  destruct (loading_end_resets_after_delay (atTop 0) initial)
    as (_ & _ & _ & H).
  destruct (H (atTop 100) (atTop 200) (atTop 500) 100 250 paragraph true
              ltac:(discriminate) eq_refl ltac:(discriminate) eq_refl
              ltac:(discriminate))
    as (_ & s3 & Hd & Hp & Hpl & _).
  exists s3. split; [exact Hd|split; assumption].
Defined.

(** ** The probe and the container *)

(** X16: the probe looks at nothing from the container upward, skips nodes
    that are not elements, and reports nothing when no node below the
    container is scrolled away from its own top. *)
Theorem probe_stops_at_container c :
  (forall below n above,
     is_container c n = true ->
     isScrollable c (below ++ n :: above) = isScrollable c below)
  /\ (forall n rest,
        is_container c n = false -> nodeType n <> 1%Z ->
        isScrollable c (n :: rest) = isScrollable c rest)
  /\ (forall chain,
        Forall (fun n => scrollTop n <= 0) chain -> isScrollable c chain = false).
Proof.
  split; [|split].
  - intros below n above Hn. induction below as [|m below IH]; cbn.
    + rewrite Hn. reflexivity.
    + destruct (is_container c m); [reflexivity|].
      destruct (negb (nodeType m =? 1)%Z); [exact IH|].
      destruct (overflow_scrolls (overflowY m) && Qltb 0 (scrollTop m));
        [reflexivity|exact IH].
  - intros n rest Hc Ht. cbn. rewrite Hc.
    apply Z.eqb_neq in Ht. rewrite Ht. reflexivity.
  - intros chain Hall. induction Hall as [|n chain Hn _ IH]; cbn; [reflexivity|].
    destruct (is_container c n); [reflexivity|].
    destruct (negb (nodeType n =? 1)%Z); [exact IH|].
    apply Qltb_ge in Hn. rewrite Hn, andb_false_r. exact IH.
Qed.

Lemma probe_stops_at_container_witness :
  isScrollable (Some 3%nat) listItem = false
  /\ isScrollable (Some 0%nat) textInList = isScrollable (Some 0%nat) listItem.
Proof.
  destruct (probe_stops_at_container (Some 3%nat)) as (H1 & _).
  destruct (probe_stops_at_container (Some 0%nat)) as (_ & H2 & _).
  split.
  - apply (H1 [mkNode 4 1 "visible" 0] (mkNode 3 1 "auto" 120)
              [mkNode 1 1 "visible" 0; mkNode 0 1 "visible" 0]).
    reflexivity.
  - apply H2; [reflexivity|discriminate].
Defined.

(** ** The adapters *)

(** X17: the mouse adapter does what the touch adapter does with the first
    touch point (further touch points are ignored); the [isDragging] test of
    the mouse move handler changes nothing; and the pointer leaving the
    container, a mouse release and a touch release are one and the same. *)
Theorem adapters_agree e s :
  (forall y c more,
     dispatch e (MouseMove y c) s = dispatch e (TouchMove (mkTouch y :: more) c) s)
  /\ (forall y c, handleMouseMove e y c s = handleMove e y c s)
  /\ (forall y target more,
        dispatch e (MouseDown y target) s
        = dispatch e (TouchStart (mkTouch y :: more) target) s)
  /\ dispatch e MouseLeave s = dispatch e MouseUp s
  /\ dispatch e MouseUp s = dispatch e TouchEnd s.
Proof.
  assert (H : forall y c, handleMouseMove e y c s = handleMove e y c s).
  { intros y c. unfold handleMouseMove.
    destruct (isDragging s) eqn:E; [reflexivity|].
    symmetry. apply handleMove_no_drag. assumption. }
  split; [|split; [exact H|repeat split]].
  intros y c more. cbn [dispatch handleTouchMove clientY]. rewrite H. reflexivity.
Qed.

(** ** Suppressing the native scroll *)

Lemma wheelBody_prevented e d c s :
  prevented (wheelBody e d c s) = prevented s
  \/ prevented (wheelBody e d c s) = S (prevented s) /\ c = true.
Proof.
  destruct (Qltb d 0) eqn:Hd.
  - unfold wheelBody, resetInactivityTimer, clearInactivity, executeRefresh,
      awaitRefresh, runFinally, preventDefaultIf.
    rewrite Hd.
    destruct s as [pd r p y0 dr lw acc lwe [old|] tm nx pe rc pv]; cbn;
      destruct (now e - lw <? 16)%Z; cbn; auto;
      destruct (Qltb 0 pd); destruct c; cbn;
      destruct (Qleb (threshold e) _ && Qltb 50 (- d)); cbn;
      destruct (onRefreshThrows e); cbn; try destruct (isLoading e); cbn; auto.
  - destruct (wheelBody_downward_fields e d c s Hd) as (_ & _ & W3 & _).
    rewrite W3. destruct (Qltb 0 (pullDistance s)); cbn [andb]; [|auto].
    destruct c; cbn [andb]; [|auto].
    destruct (negb _ && isPulling s); auto.
Qed.

Lemma handleEnd_prevented e s : prevented (handleEnd e s) = prevented s.
Proof.
  unfold handleEnd, awaitRefresh, runFinally. cbv zeta.
  destruct (negb (isPulling (set_isDragging false s))); [reflexivity|].
  destruct (Qleb (threshold e) (pullDistance (set_isDragging false s)));
    [|reflexivity].
  destruct (onRefreshThrows e); reflexivity.
Qed.

Lemma handleMove_prevented e y c s :
  prevented (handleMove e y c s) = prevented s
  \/ prevented (handleMove e y c s) = S (prevented s) /\ c = true.
Proof.
  unfold handleMove, preventDefaultIf.
  destruct (negb (isDragging s)); [auto|].
  destruct (isRefreshing s); [auto|].
  destruct (Qltb 0 (y - startY s) && Qleb (scrollY e) 5).
  - destruct c; auto.
  - destruct (Qltb (y - startY s) 0); auto.
Qed.

(** X18: a turn suppresses the native behaviour of its event at most once,
    and only a move or wheel event that is cancelable is ever suppressed:
    start and release events, timers, settlements and the watcher never call
    [preventDefault]. *)
Theorem prevent_default_only_when_cancelable e ev s c :
  dispatch e ev s = Some c ->
  prevented (after s c) = prevented s
  \/ prevented (after s c) = S (prevented s) /\ cancelableInput ev = true.
Proof.
  destruct ev; cbn [dispatch]; intros H.
  - injection H as <-. left. unfold handleTouchStart.
    destruct touches; [reflexivity|]. cbn [after].
    apply (handleStart_fields e (clientY t) target s).
  - injection H as <-. unfold handleTouchMove.
    destruct touches; [left; reflexivity|]. cbn [after cancelableInput].
    apply handleMove_prevented.
  - injection H as <-. left. apply handleEnd_prevented.
  - injection H as <-. left. cbn [after]. unfold handleMouseDown.
    apply (handleStart_fields e y target s).
  - injection H as <-. cbn [after cancelableInput]. unfold handleMouseMove.
    destruct (isDragging s); [apply handleMove_prevented|left; reflexivity].
  - injection H as <-. left. apply handleEnd_prevented.
  - injection H as <-. left. apply handleEnd_prevented.
  - injection H as <-. cbn [after cancelableInput]. unfold handleWheel.
    destruct (isRefreshing s); [left; reflexivity|].
    destruct (Qltb 0 (scrollY e)); [left; reflexivity|].
    destruct (isScrollable (containerRef e) target); [left; reflexivity|].
    apply wheelBody_prevented.
  - destruct (timers s !! id) as [[due cb]|]; [|discriminate].
    destruct (due <=? now e)%Z; [|discriminate]. injection H as <-.
    left. cbn [after]. destruct cb; cbn [runCallback]; try reflexivity.
    unfold executeRefresh, awaitRefresh, runFinally.
    destruct (Qleb (threshold e) (pullDistance (clearTimeout id s)));
      [|reflexivity].
    destruct (onRefreshThrows e); [destruct (isLoading e)|]; reflexivity.
  - destruct (pending s !! i) as [k|]; [|discriminate]. injection H as <-.
    left. cbn [after]. destruct k; cbn [runFinally];
      [|destruct (isLoading e)]; reflexivity.
  - injection H as <-. left. cbn [after]. unfold watchIsLoading. cbv zeta.
    destruct newValue; reflexivity.
Qed.

Lemma prevent_default_only_when_cancelable_witness :
  prevented (handleMove (atTop 20) 250 false
               (handleStart (atTop 10) 100 paragraph initial))
  = 0%nat.
Proof.
  destruct (prevent_default_only_when_cancelable (atTop 20)
              (MouseMove 250 false)
              (handleStart (atTop 10) 100 paragraph initial)
              (Normal (handleMove (atTop 20) 250 false
                         (handleStart (atTop 10) 100 paragraph initial)))
              eq_refl) as [H|(_ & H)].
  - exact H.
  - discriminate H.
Defined.
